(** * chat_with_pdf/chatbot.py: the upload-and-chat state handlers

    A shallow embedding of the [State] class of [chatbot.py] and of its
    event handlers [preprocess_image], [extract_text_with_ocr],
    [handle_upload], [chat] and [clear_chat].

    The handlers are written in a small state-and-exception monad over
    the fields of [self] and an explicit [World] (files on disk, printed
    lines, the ordered log of calls into the third-party libraries, and
    the documents held by the vector store).  The third-party libraries
    themselves (PyPDF2, pdf2image, PIL, pytesseract, embedchain) are not
    part of the repository: their behaviour is a parameter, the record
    [Env], and every statement below holds for every [Env]. *)

From stdpp Require Import base gmap strings list.
From Stdlib Require Import Strings.Ascii Strings.Byte Floats DecimalString.

Open Scope string_scope.

(** ** Python values *)

(** Exceptions.  Every exception the libraries raise derives from
    [Exception]; the handlers distinguish [ValueError] (and its
    subclasses) from the rest. *)
Inductive exn_class : Type :=
  | ValueError
  | OtherException.

Record exn : Type := mkExn {
  exn_cls : exn_class;
  exn_str : string          (* str(e), what an f-string prints for {e} *)
}.

Definition is_ValueError (e : exn) : bool :=
  match exn_cls e with
  | ValueError => true
  | OtherException => false
  end.

Inductive result (A : Type) : Type :=
  | Ret (a : A)
  | Raise (e : exn).
Arguments Ret {A} a.
Arguments Raise {A} e.

(** [str.isspace] on the code points below 256: the characters that
    [str.strip()] removes. *)
Definition isspace (c : ascii) : bool :=
  let n := nat_of_ascii c in
  (Nat.leb 9 n && Nat.leb n 13)
  || (Nat.leb 28 n && Nat.leb n 32)
  || Nat.eqb n 133
  || Nat.eqb n 160.

Fixpoint lstrip (s : string) : string :=
  match s with
  | EmptyString => EmptyString
  | String c rest => if isspace c then lstrip rest else s
  end.

(** [rstrip] peels the trailing white space: a character stays when it
    is not a space or when something non-empty survives to its right. *)
Fixpoint rstrip (s : string) : string :=
  match s with
  | EmptyString => EmptyString
  | String c rest =>
      match rstrip rest with
      | EmptyString => if isspace c then EmptyString else String c EmptyString
      | kept => String c kept
      end
  end.

Definition strip (s : string) : string := rstrip (lstrip s).

(** Python truth value of a string: [not s] holds for the empty string. *)
Definition not_str (s : string) : bool :=
  match s with
  | EmptyString => true
  | String _ _ => false
  end.

(** [str(n)] for a non-negative integer. *)
Definition str_of_nat (n : nat) : string := NilZero.string_of_uint (Nat.to_uint n).

(** ** The data of the application *)

(** One entry of [State.messages]: the dict
    [{"role": ..., "content": ...}]. *)
Record Message : Type := mkMessage {
  role : string;
  content : string
}.

(** The fields of [class State(rx.State)]. *)
Record State : Type := mkState {
  messages : list Message;
  db_path : string;
  pdf_filename : string;
  knowledge_base_files : list string;
  user_question : string;
  upload_status : string
}.

(** An [rx.UploadFile]: its name and the bytes [await file.read()]
    returns. *)
Record UploadFile : Type := mkUploadFile {
  filename : string;
  read : list byte
}.

(** The configuration dict that [get_app] hands to [App.from_config]. *)
Record LlmConfig : Type := mkLlmConfig {
  llm_provider : string;
  llm_model : string;
  llm_max_tokens : Z;
  llm_temperature : float;
  llm_stream : bool;
  llm_base_url : string
}.

Record VectordbConfig : Type := mkVectordbConfig {
  vectordb_provider : string;
  vectordb_dir : string
}.

Record EmbedderConfig : Type := mkEmbedderConfig {
  embedder_provider : string;
  embedder_model : string;
  embedder_base_url : string
}.

Record Config : Type := mkConfig {
  llm : LlmConfig;
  vectordb : VectordbConfig;
  embedder : EmbedderConfig
}.

(** [ImageFilter.SHARPEN] is the only filter the program names. *)
Inductive ImageFilter : Type :=
  | SHARPEN.

(** ** The world outside the program, and the monad of the handlers *)

Section Model.

(** A PIL image; the program never looks inside one. *)
Context {Image : Type}.

(** The calls the program makes into the third-party libraries, as
    logged in [calls], oldest first. *)
Inductive Call : Type :=
  | call_PdfReader (path : string)           (* PyPDF2.PdfReader(f) *)
  | call_extract_text (page_number : nat)    (* page.extract_text() *)
  | call_convert_from_path (path : string)   (* pdf2image.convert_from_path *)
  | call_image_to_string (image : Image)     (* pytesseract.image_to_string *)
  | call_from_config (config : Config)       (* embedchain App.from_config *)
  | call_add (config : Config) (source data_type : string)   (* app.add *)
  | call_chat (config : Config) (question : string).         (* app.chat *)

Record World : Type := mkWorld {
  fs : gmap string (list byte);        (* files on disk, by path *)
  stdout : list string;                (* what print() wrote, oldest first *)
  calls : list Call;
  store : gmap string (list (string * string))
    (* per vector-store directory, the (source, data_type) pairs added *)
}.

(** The third-party libraries.  The parsers and the image operations
    answer from their arguments; the vector store and the language model
    answer from the whole world (the store's contents, the history). *)
Record Env : Type := mkEnv {
  upload_path : string -> string;
    (* Path(rx.get_upload_dir()) / name *)
  PdfReader_pages : list byte -> result (list (result string));
    (* PdfReader(f).pages, each page as the outcome of extract_text() *)
  convert_from_path : list byte -> result (list Image);
    (* pdf2image.convert_from_path(path), on the bytes of the file at path *)
  convert_from_path_missing : string -> exn;
    (* what convert_from_path(path) raises when no file is at path *)
  Image_convert_L : Image -> result Image;            (* image.convert("L") *)
  Contrast_enhance : Image -> float -> result Image;
    (* ImageEnhance.Contrast(image).enhance(factor) *)
  Image_filter : Image -> ImageFilter -> result Image;  (* image.filter(f) *)
  image_to_string : Image -> result string;
  NamedTemporaryFile : World -> string;
    (* the name of the file tempfile.NamedTemporaryFile creates *)
  App_from_config : World -> Config -> result unit;
  App_add : World -> Config -> string -> string -> result unit;
  App_chat : World -> Config -> string -> result string
}.

(** A handler runs on [self] and the world; it returns or raises, and in
    both cases leaves the (mutated) [self] and world behind. *)
Definition M (A : Type) : Type := State -> World -> result A * State * World.

Definition ret {A : Type} (a : A) : M A := fun s w => (Ret a, s, w).

Definition raise {A : Type} (e : exn) : M A := fun s w => (Raise e, s, w).

Definition bind {A B : Type} (m : M A) (k : A -> M B) : M B :=
  fun s w =>
    match m s w with
    | (Ret a, s', w') => k a s' w'
    | (Raise e, s', w') => (Raise e, s', w')
    end.

(** [try: m except Exception as e: ...] seen from outside: the outcome
    of [m] as a value. *)
Definition attempt {A : Type} (m : M A) : M (result A) :=
  fun s w => let '(r, s', w') := m s w in (Ret r, s', w').

(** [try: m except ValueError as e: handler e]; any other exception
    passes through. *)
Definition try_except_ValueError {A : Type} (m : M A) (handler : exn -> M A) : M A :=
  fun s w =>
    match m s w with
    | (Ret a, s', w') => (Ret a, s', w')
    | (Raise e, s', w') =>
        if is_ValueError e then handler e s' w' else (Raise e, s', w')
    end.

Definition lift {A : Type} (r : result A) : M A :=
  fun s w => (r, s, w).

Definition get_self : M State := fun s w => (Ret s, s, w).
Definition get_world : M World := fun s w => (Ret w, s, w).
Definition modify_self (f : State -> State) : M unit := fun s w => (Ret tt, f s, w).
Definition modify_world (f : World -> World) : M unit := fun s w => (Ret tt, s, f w).

End Model.

Arguments Call : clear implicits.
Arguments World : clear implicits.
Arguments Env : clear implicits.
Arguments M : clear implicits.

Notation "'let*' x ':=' m 'in' k" := (bind m (fun x => k))
  (at level 10, x name, m at level 100, k at level 200, only parsing).
Notation "m ';;' k" := (bind m (fun _ => k))
  (at level 100, k at level 200, right associativity, only parsing).

(** ** The handlers of [class State] *)

Section Handlers.

Context {Image : Type}.
Variable E : Env Image.

Local Abbreviation M := (M Image).
Local Abbreviation World := (World Image).

(** *** Assignments to the fields of [self] *)

Definition set_messages (v : list Message) (s : State) : State :=
  mkState v (db_path s) (pdf_filename s) (knowledge_base_files s)
          (user_question s) (upload_status s).

Definition set_pdf_filename (v : string) (s : State) : State :=
  mkState (messages s) (db_path s) v (knowledge_base_files s)
          (user_question s) (upload_status s).

Definition set_knowledge_base_files (v : list string) (s : State) : State :=
  mkState (messages s) (db_path s) (pdf_filename s) v
          (user_question s) (upload_status s).

Definition set_user_question (v : string) (s : State) : State :=
  mkState (messages s) (db_path s) (pdf_filename s) (knowledge_base_files s)
          v (upload_status s).

Definition set_upload_status (v : string) (s : State) : State :=
  mkState (messages s) (db_path s) (pdf_filename s) (knowledge_base_files s)
          (user_question s) v.

(** *** Effects on the world *)

Definition set_fs (v : gmap string (list byte)) (w : World) : World :=
  mkWorld v (stdout w) (calls w) (store w).

Definition set_stdout (v : list string) (w : World) : World :=
  mkWorld (fs w) v (calls w) (store w).

Definition set_calls (v : list (Call Image)) (w : World) : World :=
  mkWorld (fs w) (stdout w) v (store w).

Definition set_store (v : gmap string (list (string * string))) (w : World) : World :=
  mkWorld (fs w) (stdout w) (calls w) v.

Definition print (line : string) : M unit :=
  modify_world (fun w => set_stdout (stdout w ++ [line]) w).

Definition log (c : Call Image) : M unit :=
  modify_world (fun w => set_calls (calls w ++ [c]) w).

(** A library call that answers from its arguments. *)
Definition external {A : Type} (c : Call Image) (answer : result A) : M A :=
  log c;; lift answer.

(** A library call that answers from the world as it is when called. *)
Definition external_w {A : Type} (c : Call Image) (answer : World -> result A) : M A :=
  let* w := get_world in
  log c;; lift (answer w).

Definition FileNotFoundError (path : string) : exn :=
  mkExn OtherException ("[Errno 2] No such file or directory: '" ++ path ++ "'").

(** The bytes of the file at [path], as [open(path, "rb")] reads them. *)
Definition read_file (path : string) : M (list byte) :=
  let* w := get_world in
  match fs w !! path with
  | Some data => ret data
  | None => raise (FileNotFoundError path)
  end.

(** [with open(path, "wb") as f: f.write(data)], and the same in text
    mode, for a path that can be opened for writing: the file then holds
    the data.  A path that cannot be opened (a directory, a missing
    parent) is outside the model. *)
Definition write_file (path : string) (data : list byte) : M unit :=
  modify_world (fun w => set_fs (<[path := data]> (fs w)) w).

Definition os_path_exists (path : string) : M bool :=
  let* w := get_world in
  ret (match fs w !! path with Some _ => true | None => false end).

Definition os_path_getsize (path : string) : M nat :=
  let* data := read_file path in
  ret (length data).

(** *** [get_app] *)

(** The configuration [get_app] builds: fixed but for the directory of
    the vector store, which is [self.db_path]. *)
Definition get_app_config (self : State) : Config :=
  mkConfig
    (mkLlmConfig "ollama" "llama3.2:latest" 250 0.5%float true
                 "http://localhost:11434")
    (mkVectordbConfig "chroma" (db_path self))
    (mkEmbedderConfig "ollama" "llama3.2:latest" "http://localhost:11434").

Definition get_app : M Config :=
  let* self := get_self in
  let config := get_app_config self in
  external_w (call_from_config config) (fun w => App_from_config E w config);;
  ret config.

(** [app.add(source, data_type=...)]: on success the store of the app's
    directory holds one more entry. *)
Definition app_add (app : Config) (source data_type : string) : M unit :=
  external_w (call_add app source data_type)
             (fun w => App_add E w app source data_type);;
  modify_world (fun w =>
    let dir := vectordb_dir (vectordb app) in
    set_store (<[dir := (default [] (store w !! dir) ++ [(source, data_type)])%list]>
                 (store w)) w).

Definition app_chat (app : Config) (question : string) : M string :=
  external_w (call_chat app question) (fun w => App_chat E w app question).

(** *** [preprocess_image] *)

Definition preprocess_image (image : Image) : M Image :=
  (* Convert to grayscale *)
  let* gray_image := lift (Image_convert_L E image) in
  (* Enhance contrast *)
  let* enhanced_image := lift (Contrast_enhance E gray_image 2.0%float) in
  (* Optionally apply some filters (e.g., sharpen) *)
  let* sharpened_image := lift (Image_filter E enhanced_image SHARPEN) in
  ret sharpened_image.

(** *** [extract_text_with_ocr] *)

(** The [for i, image in enumerate(images)] loop of
    [extract_text_with_ocr], from index [i] on.  The loop sits inside
    the [try]: an exception in one iteration leaves the loop, and the
    handler sees the local [extracted_text] as built so far.  The result
    is that text with the exception that left the loop, if any. *)
Fixpoint extract_text_with_ocr_loop (images : list Image) (i : nat)
    (extracted_text : string) : M (string * option exn) :=
  match images with
  | [] => ret (extracted_text, None)
  | image :: rest =>
      let* r := attempt (
        (* Preprocess the image *)
        let* processed_image := preprocess_image image in
        (* Extract text from the processed image using pytesseract *)
        let* text := external (call_image_to_string processed_image)
                              (image_to_string E processed_image) in
        print ("Extracted text from page " ++ str_of_nat (i + 1));;
        ret text) in
      match r with
      | Ret text =>
          extract_text_with_ocr_loop rest (S i)
            (extracted_text ++ text ++ String "010" (String "010" ""))
      | Raise e => ret (extracted_text, Some e)
      end
  end.

Definition extract_text_with_ocr (pdf_path : string) : M string :=
  print ("Starting OCR extraction for: " ++ pdf_path);;
  let extracted_text := "" in
  let* r := attempt (
    (* Convert PDF pages to images *)
    log (call_convert_from_path pdf_path);;
    let* w := get_world in
    lift (match fs w !! pdf_path with
          | Some data => convert_from_path E data
          | None => Raise (convert_from_path_missing E pdf_path)
          end)) in
  let* out :=
    match r with
    | Ret images => extract_text_with_ocr_loop images 0 extracted_text
    | Raise e => ret (extracted_text, Some e)
    end in
  match snd out with
  | Some e => print ("Error during OCR: " ++ exn_str e)
  | None => ret tt
  end;;
  ret (fst out).

(** *** [handle_upload] *)

(** Python truth value of a string, as in [if text:]. *)
Definition str_bool (s : string) : bool := negb (not_str s).

(** The [for page in reader.pages] loop of [handle_upload]. *)
Fixpoint handle_upload_pages (pages : list (result string)) (page_number : nat)
    (extracted_text : string) : M string :=
  match pages with
  | [] => ret extracted_text
  | page :: rest =>
      let* text := external (call_extract_text page_number) page in
      handle_upload_pages rest (S page_number)
        (if str_bool text then extracted_text ++ text else extracted_text)
  end.

(** The last part of [handle_upload], from [app = self.get_app()] on:
    the extracted text goes to the vector store. *)
Definition handle_upload_ingest (file : UploadFile) (upload_dir extracted_text : string)
    : M unit :=
  (* Now pass to embedchain for further processing *)
  let* app := get_app in
  try_except_ValueError (
    (* Save the extracted text as a temporary text file for embedding *)
    let* w := get_world in
    let temp_text_file := NamedTemporaryFile E w in
    write_file temp_text_file [];;
    write_file temp_text_file (String.list_byte_of_string extracted_text);;
    let* size := os_path_getsize upload_dir in
    print ("Uploading file: " ++ filename file ++ ", Size: "
           ++ str_of_nat size ++ " bytes");;
    app_add app temp_text_file "text";;   (* Adding as text *)
    print "File added successfully";;
    let* self := get_self in
    modify_self (set_knowledge_base_files
      (knowledge_base_files self ++ [pdf_filename self]));;
    let* self := get_self in
    modify_self (set_upload_status
      ("Processed and added " ++ pdf_filename self ++ " to the knowledge base!")))
  (fun e =>
    print ("Error adding file: " ++ exn_str e);;
    let* self := get_self in
    modify_self (set_upload_status
      ("Failed to process " ++ pdf_filename self ++ ". Error: " ++ exn_str e))).

Definition handle_upload (files : list UploadFile) : M unit :=
  match files with
  | [] => modify_self (set_upload_status "No file uploaded!")
  | file :: _ =>
      let upload_data := read file in
      let upload_dir := upload_path E (filename file) in   (* File path *)
      modify_self (set_pdf_filename (filename file));;
      (* Save the file *)
      write_file upload_dir upload_data;;
      (* Check if the file is saved and not empty *)
      let* saved := os_path_exists upload_dir in
      let* unusable :=
        if negb saved then ret true
        else let* size := os_path_getsize upload_dir in ret (Nat.eqb size 0) in
      if unusable then
        modify_self (set_upload_status "File not saved properly or is empty!")
      else
        (* Try to extract text normally first *)
        let* r := attempt (
          let* data := read_file upload_dir in
          let* pages := external (call_PdfReader upload_dir) (PdfReader_pages E data) in
          handle_upload_pages pages 0 "") in
        match r with
        | Raise e =>
            print ("Error reading PDF with PyPDF2: " ++ exn_str e);;
            modify_self (set_upload_status ("Error reading PDF with PyPDF2: " ++ exn_str e))
        | Ret extracted_text =>
            (* If no text was found, fall back to OCR *)
            let* extracted_text :=
              if not_str (strip extracted_text) then
                let* self := get_self in
                modify_self (set_upload_status
                  ("No selectable text found in " ++ pdf_filename self
                   ++ ", performing OCR..."));;
                extract_text_with_ocr upload_dir
              else ret extracted_text in
            if not_str (strip extracted_text) then
              let* self := get_self in
              modify_self (set_upload_status
                ("OCR failed to extract meaningful content from " ++ pdf_filename self))
            else
              handle_upload_ingest file upload_dir extracted_text
        end
  end.

(** *** [chat] and [clear_chat] *)

Definition chat : M unit :=
  let* self := get_self in
  if not_str (user_question self) then ret tt
  else
    let* app := get_app in
    let* self := get_self in
    modify_self (set_messages (messages self ++ [mkMessage "user" (user_question self)]));;
    let* self := get_self in
    let* response := app_chat app (user_question self) in
    let* self := get_self in
    modify_self (set_messages (messages self ++ [mkMessage "assistant" response]));;
    modify_self (set_user_question "").   (* Clear the question after sending *)

Definition clear_chat : M unit :=
  modify_self (set_messages []).

End Handlers.

Arguments clear_chat : clear implicits.

(** ** What the specification calls the Extractor and the Preprocessor *)

(** These definitions follow the words of the specification (sections
    4.1 and 4.2); the lemmas of the next part compare the handlers with
    them: [preprocess_image_run] for [preprocess_spec],
    [handle_upload_pages_run] for [direct_pages_text],
    [extract_text_with_ocr_run] for [ocr_text] (it is the text
    [extract_text_with_ocr] returns) and [handle_upload_extracted] for
    [extract]. *)

Section Specification.

Context {Image : Type}.
Variable E : Env Image.

Definition result_bind {A B : Type} (r : result A) (k : A -> result B) : result B :=
  match r with
  | Ret a => k a
  | Raise e => Raise e
  end.

(** "convert to grayscale, increase contrast by a fixed factor, apply a
    sharpening filter". *)
Definition preprocess_spec (image : Image) : result Image :=
  result_bind (Image_convert_L E image) (fun gray =>
  result_bind (Contrast_enhance E gray 2.0%float) (fun enhanced =>
  Image_filter E enhanced SHARPEN)).

(** One page of the OCR path: preprocess, then run the OCR engine. *)
Definition ocr_page (image : Image) : result string :=
  result_bind (preprocess_spec image) (image_to_string E).

Definition blank_line : string := String "010" (String "010" "").

(** The text the OCR path yields for the rasterized pages: each page's
    text followed by a blank line, up to the first page that raises. *)
Fixpoint ocr_pages_text (images : list Image) : string :=
  match images with
  | [] => ""
  | image :: rest =>
      match ocr_page image with
      | Ret text => text ++ blank_line ++ ocr_pages_text rest
      | Raise _ => ""
      end
  end.

Definition ocr_text (data : list byte) : string :=
  match convert_from_path E data with
  | Ret images => ocr_pages_text images
  | Raise _ => ""
  end.

(** "Attempt direct text extraction per page; concatenate all page
    texts". *)
Fixpoint direct_pages_text (pages : list (result string)) : result string :=
  match pages with
  | [] => Ret ""
  | page :: rest =>
      result_bind page (fun text =>
      result_bind (direct_pages_text rest) (fun more => Ret (text ++ more)))
  end.

Definition direct_text (data : list byte) : result string :=
  result_bind (PdfReader_pages E data) direct_pages_text.

(** [extract(path) -> text] of section 4.1, on the bytes of the file. *)
Definition extract (data : list byte) : result string :=
  result_bind (direct_text data) (fun text =>
    if not_str (strip text) then Ret (ocr_text data) else Ret text).

(** The claim that an OCR error on one page only drops that page: the
    text of every page that can be read, failing pages skipped. *)
Fixpoint ocr_pages_text_skipping_failures (images : list Image) : string :=
  match images with
  | [] => ""
  | image :: rest =>
      match ocr_page image with
      | Ret text => text ++ blank_line ++ ocr_pages_text_skipping_failures rest
      | Raise _ => ocr_pages_text_skipping_failures rest
      end
  end.

(** The calls and printed lines the two page loops leave behind, and
    the exception that ends the OCR loop early, as functions of the
    libraries' answers. *)
Fixpoint direct_pages_calls (pages : list (result string)) (page_number : nat)
    : list (Call Image) :=
  match pages with
  | [] => []
  | page :: rest =>
      call_extract_text page_number ::
      match page with
      | Ret _ => direct_pages_calls rest (S page_number)
      | Raise _ => []
      end
  end.

Definition ocr_page_calls (image : Image) : list (Call Image) :=
  match preprocess_spec image with
  | Ret processed => [call_image_to_string processed]
  | Raise _ => []
  end.

Fixpoint ocr_pages_calls (images : list Image) : list (Call Image) :=
  match images with
  | [] => []
  | image :: rest =>
      (ocr_page_calls image ++
       match ocr_page image with
       | Ret _ => ocr_pages_calls rest
       | Raise _ => []
       end)%list
  end.

Fixpoint ocr_pages_prints (images : list Image) (i : nat) : list string :=
  match images with
  | [] => []
  | image :: rest =>
      match ocr_page image with
      | Ret _ =>
          ("Extracted text from page " ++ str_of_nat (i + 1))
          :: ocr_pages_prints rest (S i)
      | Raise _ => []
      end
  end.

Fixpoint ocr_pages_error (images : list Image) : option exn :=
  match images with
  | [] => None
  | image :: rest =>
      match ocr_page image with
      | Ret _ => ocr_pages_error rest
      | Raise e => Some e
      end
  end.

(** The calls of the direct extraction after [PdfReader(f)] itself. *)
Definition direct_calls (data : list byte) : list (Call Image) :=
  match PdfReader_pages E data with
  | Ret pages => direct_pages_calls pages 0
  | Raise _ => []
  end.

(** The same for a whole run of the OCR path on the bytes of a file. *)
Definition ocr_error (data : list byte) : option exn :=
  match convert_from_path E data with
  | Ret images => ocr_pages_error images
  | Raise e => Some e
  end.

Definition ocr_calls (data : list byte) : list (Call Image) :=
  match convert_from_path E data with
  | Ret images => ocr_pages_calls images
  | Raise _ => []
  end.

Definition ocr_prints (data : list byte) : list string :=
  (match convert_from_path E data with
   | Ret images => ocr_pages_prints images 0
   | Raise _ => []
   end ++
   match ocr_error data with
   | Some e => [("Error during OCR: " ++ exn_str e)%string]
   | None => []
   end)%list.

End Specification.

(** Which library a logged call went to. *)
Definition is_parser_call {Image : Type} (c : Call Image) : bool :=
  match c with
  | call_PdfReader _ | call_extract_text _ => true
  | _ => false
  end.

Definition is_ocr_call {Image : Type} (c : Call Image) : bool :=
  match c with
  | call_convert_from_path _ | call_image_to_string _ => true
  | _ => false
  end.

Definition is_store_call {Image : Type} (c : Call Image) : bool :=
  match c with
  | call_from_config _ | call_add _ _ _ | call_chat _ _ => true
  | _ => false
  end.

(** The text handed to the vector store by the last call, when that call
    is [app.add(name, ...)]: the contents of the file it names. *)
Definition ingested_text {Image : Type} (w : World Image) : option string :=
  match last (calls w) with
  | Some (call_add _ source _) => String.string_of_list_byte <$> fs w !! source
  | _ => None
  end.

(** Whether a text is empty or white space only: every character of it
    is a white-space character ([str.isspace]). *)
Fixpoint all_space (s : string) : bool :=
  match s with
  | EmptyString => true
  | String c rest => isspace c && all_space rest
  end.

(** Whether a list of messages is a sequence of exchanges: a "user"
    entry, then an "assistant" entry, and so on. *)
Fixpoint paired (msgs : list Message) : bool :=
  match msgs with
  | [] => true
  | question :: rest =>
      match rest with
      | [] => false
      | reply :: more =>
          String.eqb (role question) "user"
          && String.eqb (role reply) "assistant"
          && paired more
      end
  end.

(** ** A concrete world for the scenarios of the specification *)

Module Demo.

(** Images are named by what is on them. *)
Definition TesseractError : exn := mkExn OtherException "tesseract failed".
Definition PdfReadError : exn := mkExn OtherException "EOF marker not found".
Definition ConnectionError : exn := mkExn OtherException "connection refused".

Definition pdf (body : string) : list byte := String.list_byte_of_string body.

Definition pages_of (data : list byte) : result (list (result string)) :=
  match String.string_of_list_byte data with
  | "contract" => Ret [Ret "Payment due in 30 days"]
  | "scan" => Ret [Ret ""]
  | "smudged" => Ret [Ret ""; Ret " "]
  | "blank" => Ret [Ret ""]
  | _ => Raise PdfReadError
  end.

Definition images_of (data : list byte) : result (list string) :=
  match String.string_of_list_byte data with
  | "scan" => Ret ["invoice"]
  | "smudged" => Ret ["torn"; "invoice"]
  | "blank" => Ret ["empty"]
  | _ => Ret []
  end.

Definition ocr (image : string) : result string :=
  match image with
  | "sharp(contrast(gray(invoice)))" => Ret "Invoice #123"
  | "sharp(contrast(gray(torn)))" => Raise TesseractError
  | _ => Ret " "
  end.

Definition answer (question : string) : result string :=
  match question with
  | "What is the due date?" => Ret "Payment is due in 30 days."
  | _ => Raise ConnectionError
  end.

Definition env : Env string :=
  mkEnv
    (fun name => "uploaded_files/" ++ name)
    pages_of
    images_of
    (fun path => mkExn OtherException ("Unable to get page count: " ++ path))
    (fun image => Ret ("gray(" ++ image ++ ")"))
    (fun image _ => Ret ("contrast(" ++ image ++ ")"))
    (fun image _ => Ret ("sharp(" ++ image ++ ")"))
    ocr
    (fun w => "/tmp/tmp" ++ str_of_nat (length (calls w)) ++ ".txt")
    (fun _ _ => Ret tt)
    (fun _ _ _ _ => Ret tt)
    (fun _ _ question => answer question).

Definition state0 : State := mkState [] "/tmp/kb" "" [] "" "".
Definition world0 : World string := mkWorld ∅ [] [] ∅.

Definition contract_pdf : UploadFile := mkUploadFile "contract.pdf" (pdf "contract").
Definition scan_pdf : UploadFile := mkUploadFile "scan.pdf" (pdf "scan").
Definition smudged_pdf : UploadFile := mkUploadFile "smudged.pdf" (pdf "smudged").
Definition blank_pdf : UploadFile := mkUploadFile "blank.pdf" (pdf "blank").
Definition broken_pdf : UploadFile := mkUploadFile "broken.pdf" (pdf "broken").

(** The same file uploaded twice in a row. *)
Definition first_upload : result unit * State * World string :=
  handle_upload env [contract_pdf] state0 world0.

Definition second_upload : result unit * State * World string :=
  handle_upload env [contract_pdf] (snd (fst first_upload)) (snd first_upload).

(** The initial state with a question typed in. *)
Definition asking (question : string) : State := mkState [] "/tmp/kb" "" [] question "".

(** The world once [file] has been saved in the upload directory. *)
Definition saved (file : UploadFile) : World string :=
  mkWorld {[ upload_path env (filename file) := read file ]} [] [] ∅.

(** The same libraries with another rasterizer and another vector
    store: what [convert_from_path], [App.from_config] and [app.add]
    answer. *)
Definition PopplerError : exn := mkExn OtherException "Unable to get page count".
Definition EmptyDocument : exn := mkExn ValueError "nothing to embed".
Definition StoreLocked : exn := mkExn OtherException "database is locked".

Definition env_with (rasterize : list byte -> result (list string))
    (opens adds : result unit) : Env string :=
  mkEnv (upload_path env) (PdfReader_pages env) rasterize
        (convert_from_path_missing env)
        (Image_convert_L env) (Contrast_enhance env) (Image_filter env)
        (image_to_string env) (NamedTemporaryFile env)
        (fun _ _ => opens) (fun _ _ _ _ => adds) (App_chat env).

(** The same libraries with a parser that finds the given pages. *)
Definition env_reading (pages : list (result string)) : Env string :=
  mkEnv (upload_path env) (fun _ => Ret pages) (convert_from_path env)
        (convert_from_path_missing env)
        (Image_convert_L env) (Contrast_enhance env) (Image_filter env)
        (image_to_string env) (NamedTemporaryFile env)
        (App_from_config env) (App_add env) (App_chat env).


(** A conversation of one exchange, with a new question typed in. *)
Definition exchange : list Message :=
  [mkMessage "user" "What is the due date?";
   mkMessage "assistant" "Payment is due in 30 days."].

Definition asking_again (question : string) : State :=
  mkState exchange "/tmp/kb" "contract.pdf" ["contract.pdf"] question
          "Processed and added contract.pdf to the knowledge base!".

End Demo.

(** ** Facts about strings *)

Lemma append_nil_r (s : string) : s ++ "" = s.
Proof.
  induction s as [|c s IH]; [reflexivity|].
  change (String c (s ++ "") = String c s). by rewrite IH.
Qed.

Lemma append_assoc (s1 s2 s3 : string) : (s1 ++ s2) ++ s3 = s1 ++ (s2 ++ s3).
Proof.
  induction s1 as [|c s1 IH]; [reflexivity|].
  change (String c ((s1 ++ s2) ++ s3) = String c (s1 ++ (s2 ++ s3))).
  by rewrite IH.
Qed.

Lemma not_str_true (s : string) : not_str s = true <-> s = "".
Proof. destruct s; simpl; split; congruence. Qed.

Lemma not_str_false (s : string) : not_str s = false <-> s <> "".
Proof. destruct s; simpl; split; congruence. Qed.

(** [if text: extracted_text += text] is plain concatenation. *)
Lemma append_if_str_bool (acc text : string) :
  (if str_bool text then acc ++ text else acc) = acc ++ text.
Proof. destruct text; simpl; [by rewrite append_nil_r | reflexivity]. Qed.

Lemma concat_empty_cons (t : string) (ts : list string) :
  String.concat "" (t :: ts) = t ++ String.concat "" ts.
Proof. destruct ts; simpl; [by rewrite append_nil_r | reflexivity]. Qed.

(** A string strips to the empty string exactly when all its characters
    are white space. *)

Lemma lstrip_empty (s : string) : lstrip s = "" <-> all_space s = true.
Proof.
  induction s as [|c s IH]; simpl; [done|].
  destruct (isspace c); simpl; [exact IH | split; discriminate].
Qed.

Lemma rstrip_empty (s : string) : rstrip s = "" <-> all_space s = true.
Proof.
  induction s as [|c s IH]; simpl; [done|].
  destruct (rstrip s) as [|c' kept].
  - destruct (isspace c); simpl; [|split; discriminate].
    split; [intros _; by apply IH | done].
  - split; [discriminate|]. intros [_ Hrest]%andb_true_iff.
    by apply IH in Hrest.
Qed.

Lemma all_space_lstrip (s : string) : all_space (lstrip s) = all_space s.
Proof.
  induction s as [|c s IH]; simpl; [done|].
  destruct (isspace c) eqn:Hc; simpl; [exact IH | by rewrite Hc].
Qed.

Lemma strip_empty (s : string) : strip s = "" <-> all_space s = true.
Proof. unfold strip. by rewrite rstrip_empty, all_space_lstrip. Qed.

Lemma all_space_append (s1 s2 : string) :
  all_space (s1 ++ s2) = all_space s1 && all_space s2.
Proof.
  induction s1 as [|c s1 IH]; [done|].
  change (all_space (String c (s1 ++ s2)) = all_space (String c s1) && all_space s2).
  simpl. by rewrite IH, andb_assoc.
Qed.

Lemma all_space_concat (texts : list string) :
  all_space (String.concat "" texts) = forallb all_space texts.
Proof.
  induction texts as [|t texts IH]; [done|].
  by rewrite concat_empty_cons, all_space_append, IH.
Qed.

Lemma all_space_pages (texts : list string) :
  all_space (String.concat "" (map (fun t => t ++ blank_line) texts))
  = forallb all_space texts.
Proof.
  rewrite all_space_concat. induction texts as [|t texts IH]; [done|].
  simpl. rewrite IH, all_space_append. simpl. by rewrite andb_true_r.
Qed.

(** Unfolds the monad and the primitive effects of a handler. *)
Ltac run :=
  cbv [bind ret raise attempt try_except_ValueError lift get_self get_world
       modify_self modify_world print log external external_w read_file
       write_file os_path_exists os_path_getsize
       set_fs set_stdout set_calls set_store];
  simpl.

(** ** The page loops compute what the specification-side functions say *)

Section Runs.

Context {Image : Type}.
Variable E : Env Image.

Lemma preprocess_image_run (image : Image) (s : State) (w : World Image) :
  preprocess_image E image s w = (preprocess_spec E image, s, w).
Proof.
  unfold preprocess_image, preprocess_spec, bind, lift, ret, result_bind.
  destruct (Image_convert_L E image) as [gray|e]; [|reflexivity].
  destruct (Contrast_enhance E gray 2) as [enhanced|e]; [|reflexivity].
  by destruct (Image_filter E enhanced SHARPEN).
Qed.

Lemma handle_upload_pages_run (pages : list (result string)) (n : nat)
    (acc : string) (s : State) (w : World Image) :
  handle_upload_pages pages n acc s w =
  (result_bind (direct_pages_text pages) (fun text => Ret (acc ++ text)), s,
   mkWorld (fs w) (stdout w) (calls w ++ direct_pages_calls pages n) (store w)).
Proof.
  revert n acc w. induction pages as [|page rest IH]; intros n acc w.
  - simpl. unfold ret. rewrite append_nil_r, app_nil_r. by destruct w.
  - destruct page as [text|e]; simpl.
    + unfold bind at 1. unfold external, bind, log, modify_world, lift. simpl.
      rewrite IH, append_if_str_bool. simpl. rewrite <- app_assoc. simpl.
      destruct (direct_pages_text rest) as [more|e]; simpl;
        [by rewrite append_assoc | reflexivity].
    + reflexivity.
Qed.

Lemma extract_text_with_ocr_loop_run (images : list Image) (i : nat)
    (acc : string) (s : State) (w : World Image) :
  extract_text_with_ocr_loop E images i acc s w =
  (Ret (acc ++ ocr_pages_text E images, ocr_pages_error E images), s,
   mkWorld (fs w) (stdout w ++ ocr_pages_prints E images i)
           (calls w ++ ocr_pages_calls E images) (store w)).
Proof.
  revert i acc w. induction images as [|image rest IH]; intros i acc w.
  - simpl. unfold ret. rewrite append_nil_r, !app_nil_r. by destruct w.
  - simpl. unfold bind at 1. unfold attempt, bind at 1.
    rewrite preprocess_image_run. unfold ocr_page, ocr_page_calls.
    destruct (preprocess_spec E image) as [processed|e]; simpl.
    + unfold external, bind, log, modify_world, lift, print. simpl.
      destruct (image_to_string E processed) as [text|e]; simpl.
      * rewrite IH. simpl. rewrite <- !app_assoc, !append_assoc. reflexivity.
      * unfold ret. by rewrite !app_nil_r, append_nil_r.
    + unfold ret. by rewrite !app_nil_r, append_nil_r; destruct w.
Qed.

Lemma extract_text_with_ocr_run (path : string) (data : list byte)
    (s : State) (w : World Image) :
  fs w !! path = Some data ->
  extract_text_with_ocr E path s w =
  (Ret (ocr_text E data), s,
   mkWorld (fs w)
           (stdout w ++ ("Starting OCR extraction for: " ++ path) :: ocr_prints E data)
           (calls w ++ call_convert_from_path path :: ocr_calls E data)
           (store w)).
Proof.
  intros Hfile.
  unfold extract_text_with_ocr, ocr_text, ocr_prints, ocr_calls, ocr_error.
  unfold bind at 1. unfold print at 1. unfold modify_world at 1.
  unfold bind at 1. unfold attempt, bind at 1. unfold log, modify_world.
  unfold bind at 1. unfold get_world. simpl.
  rewrite Hfile. unfold lift.
  destruct (convert_from_path E data) as [images|e].
  - unfold bind at 1. rewrite extract_text_with_ocr_loop_run. simpl.
    destruct (ocr_pages_error E images) as [e|]; unfold bind, print, modify_world, ret;
      simpl; rewrite <- !app_assoc; simpl; [reflexivity|].
    by rewrite app_nil_r.
  - unfold bind, print, modify_world, ret. simpl.
    rewrite <- !app_assoc. reflexivity.
Qed.

(** [handle_upload] once the file is saved and the direct extraction has
    returned [text]: the OCR fallback, the emptiness check and the
    hand-over to ingestion. *)
Lemma handle_upload_extracted (file : UploadFile) (rest : list UploadFile)
    (s : State) (w : World Image) (text : string) :
  read file <> [] ->
  direct_text E (read file) = Ret text ->
  let path := upload_path E (filename file) in
  let s1 := set_pdf_filename (filename file) s in
  let w1 := mkWorld (<[path := read file]> (fs w)) (stdout w)
                    (calls w ++ call_PdfReader path :: direct_calls E (read file))
                    (store w) in
  handle_upload E (file :: rest) s w =
  if not_str (strip text) then
    let s2 := set_upload_status
                ("No selectable text found in " ++ filename file
                 ++ ", performing OCR...") s1 in
    let w2 := mkWorld (fs w1)
                (stdout w ++ ("Starting OCR extraction for: " ++ path)
                           :: ocr_prints E (read file))
                (calls w1 ++ call_convert_from_path path :: ocr_calls E (read file))
                (store w) in
    if not_str (strip (ocr_text E (read file))) then
      (Ret tt,
       set_upload_status
         ("OCR failed to extract meaningful content from " ++ filename file) s2,
       w2)
    else handle_upload_ingest E file path (ocr_text E (read file)) s2 w2
  else handle_upload_ingest E file path text s1 w1.
Proof.
  intros Hdata Hdirect path s1 w1.
  unfold handle_upload. run.
  destruct (read file) as [|b data] eqn:Hread; [done|]. simpl.
  repeat (rewrite lookup_insert_eq; simpl).
  unfold direct_text in Hdirect. subst w1. unfold direct_calls.
  destruct (PdfReader_pages E (b :: data)) as [pages|e]; [|done].
  simpl in Hdirect. rewrite handle_upload_pages_run. rewrite Hdirect. simpl.
  change ("" ++ text) with text. subst path s1.
  destruct (not_str (strip text)) eqn:Hstrip.
  - erewrite extract_text_with_ocr_run by (simpl; apply lookup_insert_eq).
    simpl. rewrite <- !app_assoc. simpl.
    by destruct (not_str (strip (ocr_text E (b :: data)))).
  - rewrite Hstrip. by rewrite <- !app_assoc.
Qed.

(** [handle_upload] when the direct extraction raises. *)
Lemma handle_upload_parse_error (file : UploadFile) (rest : list UploadFile)
    (s : State) (w : World Image) (e : exn) :
  read file <> [] ->
  direct_text E (read file) = Raise e ->
  let path := upload_path E (filename file) in
  let line := "Error reading PDF with PyPDF2: " ++ exn_str e in
  handle_upload E (file :: rest) s w =
  (Ret tt,
   set_upload_status line (set_pdf_filename (filename file) s),
   mkWorld (<[path := read file]> (fs w)) (stdout w ++ [line])
           (calls w ++ call_PdfReader path :: direct_calls E (read file))
           (store w)).
Proof.
  intros Hdata Hdirect path line.
  unfold handle_upload. run.
  destruct (read file) as [|b data] eqn:Hread; [done|]. simpl.
  repeat (rewrite lookup_insert_eq; simpl).
  unfold direct_text in Hdirect. unfold direct_calls.
  destruct (PdfReader_pages E (b :: data)) as [pages|e'].
  - simpl in Hdirect. rewrite handle_upload_pages_run. rewrite Hdirect. simpl.
    by rewrite <- !app_assoc.
  - simpl in Hdirect. injection Hdirect as ->. reflexivity.
Qed.

(** The ingestion part, by the answers of the vector store. *)
Lemma handle_upload_ingest_run (file : UploadFile) (path text : string)
    (s : State) (w : World Image) (data : list byte) :
  fs w !! path = Some data ->
  let cfg := get_app_config s in
  let w1 := mkWorld (fs w) (stdout w) (calls w ++ [call_from_config cfg]) (store w) in
  let tmp := NamedTemporaryFile E w1 in
  let files := <[tmp := String.list_byte_of_string text]> (<[tmp := []]> (fs w)) in
  let line := "Uploading file: " ++ filename file ++ ", Size: "
              ++ str_of_nat (length (default [] (files !! path))) ++ " bytes" in
  let w2 := mkWorld files (stdout w ++ [line]) (calls w1) (store w) in
  let w3 := mkWorld files (stdout w ++ [line])
                    (calls w ++ [call_from_config cfg; call_add cfg tmp "text"])
                    (store w) in
  let dir := db_path s in
  handle_upload_ingest E file path text s w =
  match App_from_config E w cfg with
  | Raise e => (Raise e, s, w1)
  | Ret _ =>
      match App_add E w2 cfg tmp "text" with
      | Ret _ =>
          (Ret tt,
           set_upload_status
             ("Processed and added " ++ pdf_filename s ++ " to the knowledge base!")
             (set_knowledge_base_files (knowledge_base_files s ++ [pdf_filename s]) s),
           mkWorld files (stdout w ++ [line; "File added successfully"]) (calls w3)
                   (<[dir := (default [] (store w !! dir) ++ [(tmp, "text")])%list]>
                      (store w)))
      | Raise e =>
          if is_ValueError e then
            (Ret tt,
             set_upload_status
               ("Failed to process " ++ pdf_filename s ++ ". Error: " ++ exn_str e) s,
             mkWorld files (stdout w ++ [line; "Error adding file: " ++ exn_str e])
                     (calls w3) (store w))
          else (Raise e, s, w3)
      end
  end.
Proof.
  intros Hfile cfg w1 tmp files line w2 w3 dir.
  assert (exists d, files !! path = Some d) as [d Hd].
  { subst files. destruct (decide (tmp = path)) as [->|Hne].
    - eexists. apply lookup_insert_eq.
    - exists data. by rewrite !lookup_insert_ne. }
  subst line w2 w3 files tmp w1 dir. simpl in *.
  unfold handle_upload_ingest, get_app, app_add. run. fold cfg.
  destruct (App_from_config E w cfg) as [[]|e]; simpl; [|reflexivity].
  rewrite Hd. simpl.
  match goal with |- context [App_add E ?w' cfg ?t "text"] =>
    destruct (App_add E w' cfg t "text") as [[]|e] end; simpl.
  - rewrite <- !app_assoc. reflexivity.
  - destruct (is_ValueError e); simpl; rewrite <- !app_assoc; reflexivity.
Qed.

(** When every page yields its text, the direct extraction is the
    concatenation of the page texts, one [extract_text] call per page. *)
Lemma direct_pages_all_ok (texts : list string) (n : nat) :
  direct_pages_text (map Ret texts) = Ret (String.concat "" texts)
  /\ direct_pages_calls (Image := Image) (map Ret texts) n
     = map call_extract_text (seq n (length texts)).
Proof.
  revert n. induction texts as [|t texts IH]; intros n; [done|].
  destruct (IH (S n)) as [Htext Hcalls].
  cbn [map direct_pages_text direct_pages_calls result_bind length seq].
  by rewrite Htext, Hcalls, concat_empty_cons.
Qed.

Lemma direct_all_ok (data : list byte) (texts : list string) :
  PdfReader_pages E data = Ret (map Ret texts) ->
  direct_text E data = Ret (String.concat "" texts)
  /\ direct_calls E data = map call_extract_text (seq 0 (length texts)).
Proof.
  intros Hpages. unfold direct_text, direct_calls. rewrite Hpages. simpl.
  apply direct_pages_all_ok.
Qed.

(** When every rasterized page is preprocessed and read without an
    exception, the OCR text is each page's text followed by a blank
    line, one [image_to_string] call per preprocessed page. *)
Lemma ocr_pages_all_ok (images processed : list Image) (texts : list string) :
  map (preprocess_spec E) images = map Ret processed ->
  map (image_to_string E) processed = map Ret texts ->
  ocr_pages_text E images = String.concat "" (map (fun t => t ++ blank_line) texts)
  /\ ocr_pages_calls E images = map call_image_to_string processed
  /\ ocr_pages_error E images = None.
Proof.
  revert processed texts.
  induction images as [|image images IH]; intros [|p processed] [|t texts] Hpre Hocr;
    try discriminate; [done|].
  injection Hpre as Hp Hpre. injection Hocr as Ht Hocr.
  destruct (IH _ _ Hpre Hocr) as (Htext & Hcalls & Herr).
  cbn [ocr_pages_text ocr_pages_calls ocr_pages_error map].
  rewrite concat_empty_cons, append_assoc, <- Htext.
  unfold ocr_page, ocr_page_calls. rewrite Hp. cbn [result_bind]. rewrite Ht.
  by rewrite Hcalls, Herr.
Qed.

Lemma ocr_all_ok (data : list byte) (images processed : list Image)
    (texts : list string) :
  convert_from_path E data = Ret images ->
  map (preprocess_spec E) images = map Ret processed ->
  map (image_to_string E) processed = map Ret texts ->
  ocr_text E data = String.concat "" (map (fun t => t ++ blank_line) texts)
  /\ ocr_calls E data = map call_image_to_string processed
  /\ ocr_error E data = None.
Proof.
  intros Himages Hpre Hocr. unfold ocr_text, ocr_calls, ocr_error.
  rewrite Himages. by apply ocr_pages_all_ok.
Qed.

(** What ingestion adds to the log of calls, and the text it hands over. *)
Lemma handle_upload_ingest_calls (file : UploadFile) (path text : string)
    (s : State) (w : World Image) (data : list byte) :
  fs w !! path = Some data ->
  let w' := snd (handle_upload_ingest E file path text s w) in
  exists new,
    calls w' = (calls w ++ new)%list
    /\ Forall (fun c => is_ocr_call c = false) new
    /\ ((forall w0, App_from_config E w0 (get_app_config s) = Ret tt) ->
        ingested_text w' = Some text).
Proof.
  intros Hfile. rewrite (handle_upload_ingest_run _ _ _ _ _ _ Hfile).
  set (cfg := get_app_config s).
  destruct (App_from_config E w cfg) as [[]|e] eqn:Hconfig.
  - match goal with |- context [App_add E ?w2 cfg ?tmp "text"] =>
      destruct (App_add E w2 cfg tmp "text") as [[]|e] end;
      [|destruct (is_ValueError e)]; simpl;
      (eexists; split; [reflexivity|]); (split; [by repeat constructor|]); intros _;
      unfold ingested_text; simpl; rewrite last_app; simpl;
      by rewrite lookup_insert_eq; simpl; rewrite String.string_of_list_byte_of_string.
  - exists [call_from_config cfg]. simpl. split; [reflexivity|].
    split; [by repeat constructor|]. intros Hall. by rewrite Hall in Hconfig.
Qed.

End Runs.

(** ** The claims *)

(** C1.  For an uploaded, non-empty file whose pages all yield their
    text, [handle_upload] first calls the PDF parser and extracts the
    text of each page in order; writing [direct] for the concatenation
    of the page texts, the rasterizer is called afterwards if and only
    if [direct] is empty or white space only, that is, if every
    character of it is white space.  When [direct] has another
    character, no OCR call is made at all and the text handed to the
    vector store is [direct].  When it has none, and every rasterized
    page is preprocessed and read without an exception, the calls that
    follow are the rasterizer and then the OCR engine on each
    preprocessed page in order, and the text handed to the vector store
    is each page's OCR text followed by a blank line. *)
Theorem handle_upload_direct_before_ocr {Image : Type} (E : Env Image)
    (file : UploadFile) (rest : list UploadFile) (s : State) (w : World Image)
    (texts : list string) :
  read file <> [] ->
  PdfReader_pages E (read file) = Ret (map Ret texts) ->
  let path := upload_path E (filename file) in
  let direct := String.concat "" texts in
  let w' := snd (handle_upload E (file :: rest) s w) in
  let store_opens := forall w0, App_from_config E w0 (get_app_config s) = Ret tt in
  exists later,
    calls w' = (calls w ++ call_PdfReader path
                  :: map call_extract_text (seq 0 (length texts)) ++ later)%list
    /\ (In (call_convert_from_path path) later <-> all_space direct = true)
    /\ (all_space direct = false ->
        Forall (fun c => is_ocr_call c = false) later
        /\ (store_opens -> ingested_text w' = Some direct))
    /\ (all_space direct = true ->
        forall (images processed : list Image) (ocr_texts : list string),
          convert_from_path E (read file) = Ret images ->
          map (preprocess_spec E) images = map Ret processed ->
          map (image_to_string E) processed = map Ret ocr_texts ->
          let ocr := String.concat "" (map (fun t => t ++ blank_line) ocr_texts) in
          exists after,
            later = (call_convert_from_path path
                       :: map call_image_to_string processed ++ after)%list
            /\ Forall (fun c => is_ocr_call c = false) after
            /\ (all_space ocr = false -> store_opens -> ingested_text w' = Some ocr)).
Proof.
  intros Hdata Hpages path direct w' store_opens.
  destruct (direct_all_ok E _ _ Hpages) as [Hdirect Hcalls].
  subst w'. rewrite (handle_upload_extracted E file rest s w direct Hdata Hdirect).
  rewrite Hcalls. fold path. cbv zeta.
  destruct (all_space direct) eqn:Hspace.
  - assert (Hstrip : not_str (strip direct) = true)
      by (by apply not_str_true, strip_empty).
    rewrite Hstrip.
    destruct (not_str (strip (ocr_text E (read file)))) eqn:Hocr.
    + apply not_str_true, strip_empty in Hocr.
      exists (call_convert_from_path path :: ocr_calls E (read file)). simpl.
      split; [by rewrite <- app_assoc|]. split; [by split; [|left]|].
      split; [done|]. intros _ images processed ocr_texts Himages Hpre Hread.
      destruct (ocr_all_ok E _ _ _ _ Himages Hpre Hread) as (Htext & Hnew & _).
      exists []. rewrite app_nil_r, Hnew. split; [done|]. split; [constructor|].
      intros Hne. by rewrite <- Htext, Hocr in Hne.
    + match goal with |- context [handle_upload_ingest E file path ?t ?s2 ?w2] =>
        destruct (handle_upload_ingest_calls E file path t s2 w2 (read file))
          as (new & Hnew & Hquiet & Htext); [by simpl; rewrite lookup_insert_eq|]
      end.
      exists (call_convert_from_path path :: ocr_calls E (read file) ++ new)%list.
      rewrite Hnew. simpl. split; [by rewrite <- !app_assoc|].
      split; [by split; [|left]|]. split; [done|].
      intros _ images processed ocr_texts Himages Hpre Hread.
      destruct (ocr_all_ok E _ _ _ _ Himages Hpre Hread) as (Hocr_text & Hocr_calls & _).
      exists new. split; [by rewrite Hocr_calls|]. split; [done|].
      intros _ Hopens. rewrite <- Hocr_text. exact (Htext Hopens).
  - assert (Hstrip : not_str (strip direct) = false).
    { apply not_str_false. intros Hempty%strip_empty. by rewrite Hspace in Hempty. }
    rewrite Hstrip.
    match goal with |- context [handle_upload_ingest E file path ?t ?s1 ?w1] =>
      destruct (handle_upload_ingest_calls E file path t s1 w1 (read file))
        as (new & Hnew & Hquiet & Htext); [by simpl; rewrite lookup_insert_eq|]
    end.
    exists new. rewrite Hnew. simpl. split; [by rewrite <- !app_assoc|].
    split.
    { split; [|done]. intros Hin. rewrite Forall_forall in Hquiet.
      apply list_elem_of_In in Hin. by specialize (Hquiet _ Hin). }
    split; [|done]. intros _. split; [done|]. intros Hopens. exact (Htext Hopens).
Qed.

Lemma handle_upload_direct_before_ocr_witness :
  read Demo.scan_pdf <> []
  /\ PdfReader_pages (Demo.env_reading [Ret " "; Ret ""]) (read Demo.scan_pdf)
     = Ret (map Ret [" "; ""])
  /\ all_space (String.concat "" [" "; ""]) = true
  /\ In (call_convert_from_path "uploaded_files/scan.pdf")
        (calls (snd (handle_upload (Demo.env_reading [Ret " "; Ret ""])
                                   [Demo.scan_pdf] Demo.state0 Demo.world0)))
  /\ ingested_text (snd (handle_upload (Demo.env_reading [Ret " "; Ret ""])
                                       [Demo.scan_pdf] Demo.state0 Demo.world0))
     = Some ("Invoice #123" ++ blank_line).
Proof.
  assert (Hdata : read Demo.scan_pdf <> []) by discriminate.
  assert (Hpages : PdfReader_pages (Demo.env_reading [Ret " "; Ret ""])
                     (read Demo.scan_pdf) = Ret (map Ret [" "; ""])) by reflexivity.
  assert (Hblank : all_space (String.concat "" [" "; ""]) = true) by reflexivity.
  split; [exact Hdata|]. split; [exact Hpages|]. split; [exact Hblank|].
  destruct (handle_upload_direct_before_ocr (Demo.env_reading [Ret " "; Ret ""])
              Demo.scan_pdf [] Demo.state0 Demo.world0 _ Hdata Hpages)
    as (later & Hcalls & Hocr & _ & Hpath).
  split.
  - rewrite Hcalls. apply in_or_app. right. right. apply in_or_app. right.
    by apply Hocr.
  - destruct (Hpath Hblank ["invoice"] ["sharp(contrast(gray(invoice)))"]
                ["Invoice #123"] eq_refl eq_refl eq_refl)
      as (after & _ & _ & Hingested).
    apply Hingested; [reflexivity | intros w0; reflexivity].
Defined.

(** When the pages before one are read and that one raises, the OCR
    loop ends there: the text is that of the pages before, and the OCR
    engine is called for those pages and at most for the failing one. *)
Lemma ocr_pages_stop {Image : Type} (E : Env Image)
    (before after processed : list Image) (failing : Image)
    (texts : list string) (e : exn) (i : nat) :
  map (preprocess_spec E) before = map Ret processed ->
  map (image_to_string E) processed = map Ret texts ->
  ocr_page E failing = Raise e ->
  ocr_pages_text E (before ++ failing :: after)
  = String.concat "" (map (fun t => t ++ blank_line) texts)
  /\ ocr_pages_calls E (before ++ failing :: after)
     = (map call_image_to_string processed ++ ocr_page_calls E failing)%list
  /\ ocr_pages_error E (before ++ failing :: after) = Some e
  /\ ocr_pages_prints E (before ++ failing :: after) i
     = ocr_pages_prints E before i.
Proof.
  revert processed texts i.
  induction before as [|image before IH]; intros [|p processed] [|t texts] i Hpre Hocr Hfail;
    try discriminate.
  - cbn [app ocr_pages_text ocr_pages_calls ocr_pages_error ocr_pages_prints map].
    rewrite Hfail. by rewrite app_nil_r.
  - injection Hpre as Hp Hpre. injection Hocr as Ht Hocr.
    destruct (IH _ _ (S i) Hpre Hocr Hfail) as (Htext & Hcalls & Herr & Hprints).
    cbn [app ocr_pages_text ocr_pages_calls ocr_pages_error ocr_pages_prints map].
    rewrite concat_empty_cons, append_assoc, <- Htext, Hcalls, Herr, Hprints.
    unfold ocr_page at 1 2 3 4 5. unfold ocr_page_calls at 1. rewrite Hp.
    cbn [result_bind]. by rewrite Ht.
Qed.

(** C2, as amended.  An exception raised while a rasterized page is
    preprocessed or read is caught and printed, and it ends the OCR
    loop: [extract_text_with_ocr] returns the text of the pages before
    the failing one, each followed by a blank line; the failing page and
    every page after it contribute nothing, and no page after it is
    handed to the OCR engine. *)
Theorem extract_text_with_ocr_stops_at_error {Image : Type} (E : Env Image)
    (path : string) (s : State) (w : World Image) (data : list byte)
    (before after processed : list Image) (failing : Image)
    (texts : list string) (e : exn) :
  fs w !! path = Some data ->
  convert_from_path E data = Ret (before ++ failing :: after)%list ->
  map (preprocess_spec E) before = map Ret processed ->
  map (image_to_string E) processed = map Ret texts ->
  ocr_page E failing = Raise e ->
  exists lines,
    extract_text_with_ocr E path s w =
    (Ret (String.concat "" (map (fun t => t ++ blank_line) texts)), s,
     mkWorld (fs w)
             (stdout w ++ lines ++ [("Error during OCR: " ++ exn_str e)%string])%list
             (calls w ++ call_convert_from_path path
                :: map call_image_to_string processed ++ ocr_page_calls E failing)%list
             (store w)).
Proof.
  intros Hfile Himages Hpre Hocr Hfail.
  destruct (ocr_pages_stop E before after processed failing texts e 0 Hpre Hocr Hfail)
    as (Htext & Hcalls & Herr & Hprints).
  exists (("Starting OCR extraction for: " ++ path) :: ocr_pages_prints E before 0).
  rewrite (extract_text_with_ocr_run E path data s w Hfile).
  unfold ocr_text, ocr_prints, ocr_calls, ocr_error. rewrite Himages.
  by rewrite Htext, Hcalls, Herr, Hprints.
Qed.

Lemma extract_text_with_ocr_stops_at_error_witness :
  fs (Demo.saved Demo.smudged_pdf) !! "uploaded_files/smudged.pdf" = Some (read Demo.smudged_pdf)
  /\ convert_from_path Demo.env (read Demo.smudged_pdf) = Ret ([] ++ "torn" :: ["invoice"])%list
  /\ ocr_page Demo.env "torn" = Raise Demo.TesseractError
  /\ fst (fst (extract_text_with_ocr Demo.env "uploaded_files/smudged.pdf" Demo.state0
                 (Demo.saved Demo.smudged_pdf))) = Ret "".
Proof.
  set (path := "uploaded_files/smudged.pdf").
  assert (Hfile : fs (Demo.saved Demo.smudged_pdf) !! path
                  = Some (read Demo.smudged_pdf)) by apply lookup_insert_eq.
  assert (Himages : convert_from_path Demo.env (read Demo.smudged_pdf)
                    = Ret ([] ++ "torn" :: ["invoice"])%list) by reflexivity.
  assert (Hfail : ocr_page Demo.env "torn" = Raise Demo.TesseractError)
    by reflexivity.
  split; [exact Hfile|]. split; [exact Himages|]. split; [exact Hfail|].
  destruct (extract_text_with_ocr_stops_at_error Demo.env path Demo.state0
              (Demo.saved Demo.smudged_pdf) _ [] ["invoice"] [] "torn" []
              Demo.TesseractError Hfile Himages eq_refl eq_refl Hfail)
    as (lines & Hrun).
  by rewrite Hrun.
Defined.

(** C2 as the specification words it fails: with a first page the OCR
    engine rejects and a second it reads, the text of the second page
    does not reach the result. *)
Lemma extract_text_with_ocr_continues_counterexample :
  convert_from_path Demo.env (read Demo.smudged_pdf) = Ret ["torn"; "invoice"]
  /\ ocr_page Demo.env "torn" = Raise Demo.TesseractError
  /\ ocr_page Demo.env "invoice" = Ret "Invoice #123"
  /\ ocr_pages_text_skipping_failures Demo.env ["torn"; "invoice"]
     = "Invoice #123" ++ blank_line
  /\ fst (fst (extract_text_with_ocr Demo.env "uploaded_files/smudged.pdf" Demo.state0
                 (Demo.saved Demo.smudged_pdf)))
     = Ret ""
  /\ fst (fst (extract_text_with_ocr Demo.env "uploaded_files/smudged.pdf" Demo.state0
                 (Demo.saved Demo.smudged_pdf)))
     <> Ret (ocr_pages_text_skipping_failures Demo.env ["torn"; "invoice"]).
Proof.
  do 5 (split; [by vm_compute|]). vm_compute. discriminate.
Qed.

(** The two page loops only call their own library. *)
Lemma direct_calls_parser {Image : Type} (E : Env Image) (data : list byte) :
  Forall (fun c => is_parser_call c = true) (direct_calls E data).
Proof.
  unfold direct_calls. destruct (PdfReader_pages E data) as [pages|e]; [|constructor].
  generalize 0. induction pages as [|[text|e] pages IH]; intros n; simpl;
    repeat constructor. apply IH.
Qed.

Lemma ocr_calls_ocr {Image : Type} (E : Env Image) (data : list byte) :
  Forall (fun c => is_ocr_call c = true) (ocr_calls E data).
Proof.
  unfold ocr_calls. destruct (convert_from_path E data) as [images|e]; [|constructor].
  induction images as [|image images IH]; simpl; [constructor|].
  apply Forall_app. split.
  - unfold ocr_page_calls. destruct (preprocess_spec E image); repeat constructor.
  - destruct (ocr_page E image); [apply IH | constructor].
Qed.

(** An exception anywhere in the direct extraction is its outcome. *)
Lemma direct_text_raises {Image : Type} (E : Env Image) (data : list byte) (e : exn) :
  PdfReader_pages E data = Raise e
  \/ (exists texts later,
        PdfReader_pages E data = Ret (map Ret texts ++ Raise e :: later)%list) ->
  direct_text E data = Raise e.
Proof.
  unfold direct_text. intros [Hreader|(texts & later & Hpages)].
  - by rewrite Hreader.
  - rewrite Hpages. simpl. clear Hpages.
    induction texts as [|t texts IH]; simpl; [done|]. by rewrite IH.
Qed.

(** C3.  When the PDF parser raises during the direct extraction, be it
    on opening the document or on some page after the pages before
    yielded their text, [handle_upload] returns at once with the status
    "Error reading PDF with PyPDF2: <error>": from the parser's first
    call on, only the parser is called (no OCR, no vector store), and
    the knowledge-base list, the messages and the contents of the vector
    store are as before. *)
Theorem handle_upload_parse_error_aborts {Image : Type} (E : Env Image)
    (file : UploadFile) (rest : list UploadFile) (s : State) (w : World Image)
    (e : exn) :
  read file <> [] ->
  PdfReader_pages E (read file) = Raise e
  \/ (exists texts later,
        PdfReader_pages E (read file) = Ret (map Ret texts ++ Raise e :: later)%list) ->
  let out := handle_upload E (file :: rest) s w in
  fst (fst out) = Ret tt
  /\ upload_status (snd (fst out)) = "Error reading PDF with PyPDF2: " ++ exn_str e
  /\ knowledge_base_files (snd (fst out)) = knowledge_base_files s
  /\ messages (snd (fst out)) = messages s
  /\ store (snd out) = store w
  /\ exists new,
       calls (snd out) = (calls w ++ new)%list
       /\ Forall (fun c => is_parser_call c = true) new.
Proof.
  intros Hdata Hraises out. subst out.
  rewrite (handle_upload_parse_error E file rest s w e Hdata
             (direct_text_raises E _ e Hraises)).
  simpl. do 5 (split; [reflexivity|]).
  eexists. split; [reflexivity|]. constructor; [reflexivity|].
  apply direct_calls_parser.
Qed.

Lemma handle_upload_parse_error_aborts_witness :
  read Demo.broken_pdf <> []
  /\ PdfReader_pages Demo.env (read Demo.broken_pdf) = Raise Demo.PdfReadError
  /\ upload_status (snd (fst (handle_upload Demo.env [Demo.broken_pdf]
                                            Demo.state0 Demo.world0)))
     = "Error reading PDF with PyPDF2: EOF marker not found".
Proof.
  assert (Hdata : read Demo.broken_pdf <> []) by discriminate.
  assert (Hraises : PdfReader_pages Demo.env (read Demo.broken_pdf)
                    = Raise Demo.PdfReadError) by reflexivity.
  split; [exact Hdata|]. split; [exact Hraises|].
  exact (proj1 (proj2 (handle_upload_parse_error_aborts Demo.env Demo.broken_pdf []
                         Demo.state0 Demo.world0 Demo.PdfReadError Hdata
                         (or_introl Hraises)))).
Defined.

(** C4 as the specification words it fails: the same file, with the
    same content, ingested twice with success is listed twice. *)
Lemma handle_upload_twice_counterexample :
  fst (fst Demo.first_upload) = Ret tt
  /\ fst (fst Demo.second_upload) = Ret tt
  /\ upload_status (snd (fst Demo.first_upload))
     = "Processed and added contract.pdf to the knowledge base!"
  /\ upload_status (snd (fst Demo.second_upload))
     = "Processed and added contract.pdf to the knowledge base!"
  /\ knowledge_base_files (snd (fst Demo.second_upload))
     = ["contract.pdf"; "contract.pdf"]
  /\ count_occ String.string_dec (knowledge_base_files (snd (fst Demo.second_upload)))
               "contract.pdf" <> 1.
Proof.
  do 5 (split; [by vm_compute|]). vm_compute. discriminate.
Qed.

(** C4, as amended.  When the Extractor yields a text with a character
    that is not white space and the vector store opens and accepts the
    document, [handle_upload] returns with the status "Processed and
    added <filename> to the knowledge base!" and has appended the
    filename at the end of the knowledge-base list, whatever the list
    held: the filename is listed once more than before. *)
Theorem handle_upload_success_appends {Image : Type} (E : Env Image)
    (file : UploadFile) (rest : list UploadFile) (s : State) (w : World Image)
    (text : string) :
  read file <> [] ->
  extract E (read file) = Ret text ->
  strip text <> "" ->
  (forall w0, App_from_config E w0 (get_app_config s) = Ret tt) ->
  (forall w0 source, App_add E w0 (get_app_config s) source "text" = Ret tt) ->
  let out := handle_upload E (file :: rest) s w in
  fst (fst out) = Ret tt
  /\ upload_status (snd (fst out))
     = "Processed and added " ++ filename file ++ " to the knowledge base!"
  /\ knowledge_base_files (snd (fst out))
     = (knowledge_base_files s ++ [filename file])%list
  /\ count_occ String.string_dec (knowledge_base_files (snd (fst out))) (filename file)
     = S (count_occ String.string_dec (knowledge_base_files s) (filename file)).
Proof.
  intros Hdata Hextract Hstrip Hopens Hadds out. subst out.
  unfold extract in Hextract.
  destruct (direct_text E (read file)) as [direct|e] eqn:Hdirect; [|done].
  simpl in Hextract.
  rewrite (handle_upload_extracted E file rest s w direct Hdata Hdirect). cbv zeta.
  assert (Hcount : forall l : list string,
             count_occ String.string_dec (l ++ [filename file]) (filename file)
             = S (count_occ String.string_dec l (filename file))).
  { intros l. rewrite count_occ_app. simpl.
    destruct (String.string_dec (filename file) (filename file)); [lia|done]. }
  apply not_str_false in Hstrip.
  destruct (not_str (strip direct)); injection Hextract as <-.
  - rewrite Hstrip.
    erewrite handle_upload_ingest_run by (simpl; apply lookup_insert_eq).
    unfold get_app_config in *. simpl. rewrite Hopens, Hadds. simpl.
    by rewrite Hcount.
  - erewrite handle_upload_ingest_run by (simpl; apply lookup_insert_eq).
    unfold get_app_config in *. simpl. rewrite Hopens, Hadds. simpl.
    by rewrite Hcount.
Qed.

Lemma handle_upload_success_appends_witness :
  read Demo.scan_pdf <> []
  /\ extract Demo.env (read Demo.scan_pdf) = Ret ("Invoice #123" ++ blank_line)
  /\ strip ("Invoice #123" ++ blank_line) <> ""
  /\ knowledge_base_files (snd (fst (handle_upload Demo.env [Demo.scan_pdf]
                                       (snd (fst Demo.first_upload))
                                       (snd Demo.first_upload))))
     = ["contract.pdf"; "scan.pdf"].
Proof.
  assert (Hdata : read Demo.scan_pdf <> []) by discriminate.
  assert (Hextract : extract Demo.env (read Demo.scan_pdf)
                     = Ret ("Invoice #123" ++ blank_line)) by (by vm_compute).
  assert (Hstrip : strip ("Invoice #123" ++ blank_line) <> "")
    by (vm_compute; discriminate).
  split; [exact Hdata|]. split; [exact Hextract|]. split; [exact Hstrip|].
  destruct (handle_upload_success_appends Demo.env Demo.scan_pdf []
              (snd (fst Demo.first_upload)) (snd Demo.first_upload) _
              Hdata Hextract Hstrip (fun _ => eq_refl) (fun _ _ => eq_refl))
    as (_ & _ & Hlist & _).
  rewrite Hlist. by vm_compute.
Defined.

(** C5.  When the direct extraction yields only white space and the OCR
    path does too, [handle_upload] returns with the status "OCR failed
    to extract meaningful content from <filename>": the vector store is
    neither opened nor called, its contents are as before, and the
    knowledge-base list is unchanged. *)
Theorem handle_upload_ocr_yields_nothing {Image : Type} (E : Env Image)
    (file : UploadFile) (rest : list UploadFile) (s : State) (w : World Image)
    (texts : list string) :
  read file <> [] ->
  PdfReader_pages E (read file) = Ret (map Ret texts) ->
  strip (String.concat "" texts) = "" ->
  strip (ocr_text E (read file)) = "" ->
  let out := handle_upload E (file :: rest) s w in
  fst (fst out) = Ret tt
  /\ upload_status (snd (fst out))
     = "OCR failed to extract meaningful content from " ++ filename file
  /\ knowledge_base_files (snd (fst out)) = knowledge_base_files s
  /\ store (snd out) = store w
  /\ exists new,
       calls (snd out) = (calls w ++ new)%list
       /\ Forall (fun c => is_store_call c = false) new.
Proof.
  intros Hdata Hpages Hdirect Hocr out. subst out.
  destruct (direct_all_ok E _ _ Hpages) as [Htext _].
  rewrite (handle_upload_extracted E file rest s w _ Hdata Htext). cbv zeta.
  apply not_str_true in Hdirect, Hocr. rewrite Hdirect, Hocr. simpl.
  do 4 (split; [reflexivity|]).
  eexists. split; [by rewrite <- app_assoc|].
  constructor; [reflexivity|]. apply Forall_app. split.
  - eapply Forall_impl; [apply direct_calls_parser|]. by intros [].
  - constructor; [reflexivity|].
    eapply Forall_impl; [apply ocr_calls_ocr|]. by intros [].
Qed.

Lemma handle_upload_ocr_yields_nothing_witness :
  read Demo.blank_pdf <> []
  /\ PdfReader_pages Demo.env (read Demo.blank_pdf) = Ret (map Ret [""])
  /\ strip (String.concat "" [""]) = ""
  /\ strip (ocr_text Demo.env (read Demo.blank_pdf)) = ""
  /\ upload_status (snd (fst (handle_upload Demo.env [Demo.blank_pdf]
                                            Demo.state0 Demo.world0)))
     = "OCR failed to extract meaningful content from blank.pdf".
Proof.
  assert (Hdata : read Demo.blank_pdf <> []) by discriminate.
  assert (Hpages : PdfReader_pages Demo.env (read Demo.blank_pdf)
                   = Ret (map Ret [""])) by reflexivity.
  assert (Hdirect : strip (String.concat "" [""]) = "") by reflexivity.
  assert (Hocr : strip (ocr_text Demo.env (read Demo.blank_pdf)) = "")
    by (by vm_compute).
  do 4 (split; [assumption|]).
  exact (proj1 (proj2 (handle_upload_ocr_yields_nothing Demo.env Demo.blank_pdf []
                         Demo.state0 Demo.world0 _ Hdata Hpages Hdirect Hocr))).
Defined.

(** C6.  [preprocess_image] is the fixed pipeline of the specification
    (grayscale, then contrast by the factor 2.0, then the sharpening
    filter), it reads and changes neither [self] nor the world, and so
    two calls on the same image give the same outcome whatever the
    state and the world they run in. *)
Theorem preprocess_image_deterministic {Image : Type} (E : Env Image)
    (image : Image) (s1 s2 : State) (w1 w2 : World Image) :
  preprocess_image E image s1 w1
  = (result_bind (Image_convert_L E image) (fun gray =>
     result_bind (Contrast_enhance E gray 2.0%float) (fun enhanced =>
     Image_filter E enhanced SHARPEN)),
     s1, w1)
  /\ fst (fst (preprocess_image E image s1 w1))
     = fst (fst (preprocess_image E image s2 w2)).
Proof.
  split; [apply preprocess_image_run|]. by rewrite !preprocess_image_run.
Qed.

(** C7.  [clear_chat] empties the messages and nothing else: the other
    fields of [self] keep their values and the world (files, vector
    store, log) is the same. *)
Theorem clear_chat_only_messages {Image : Type} (s : State) (w : World Image) :
  let out := clear_chat Image s w in
  fst (fst out) = Ret tt
  /\ messages (snd (fst out)) = []
  /\ knowledge_base_files (snd (fst out)) = knowledge_base_files s
  /\ db_path (snd (fst out)) = db_path s
  /\ pdf_filename (snd (fst out)) = pdf_filename s
  /\ user_question (snd (fst out)) = user_question s
  /\ upload_status (snd (fst out)) = upload_status s
  /\ snd out = w.
Proof. repeat split. Qed.

(** [chat] with a question typed in, by the answers of the libraries. *)
Lemma chat_run {Image : Type} (E : Env Image) (s : State) (w : World Image) :
  user_question s <> "" ->
  let cfg := get_app_config s in
  let question := user_question s in
  let w1 := mkWorld (fs w) (stdout w) (calls w ++ [call_from_config cfg]) (store w) in
  let w2 := mkWorld (fs w) (stdout w)
                    (calls w ++ [call_from_config cfg; call_chat cfg question])
                    (store w) in
  let asked := set_messages (messages s ++ [mkMessage "user" question]) s in
  chat E s w =
  match App_from_config E w cfg with
  | Raise e => (Raise e, s, w1)
  | Ret _ =>
      match App_chat E w1 cfg question with
      | Raise e => (Raise e, asked, w2)
      | Ret response =>
          (Ret tt,
           set_user_question ""
             (set_messages (messages s ++ [mkMessage "user" question;
                                           mkMessage "assistant" response]) s),
           w2)
      end
  end.
Proof.
  intros Hasked. unfold chat, get_app, app_chat. run.
  destruct (user_question s) eqn:Hquestion; [done|]. simpl.
  destruct (App_from_config E w (get_app_config s)) as [[]|e]; simpl; [|reflexivity].
  rewrite Hquestion.
  match goal with |- context [App_chat E ?w1 ?cfg ?q] =>
    destruct (App_chat E w1 cfg q) as [response|e] end; simpl;
    unfold set_messages, set_user_question; simpl;
    by rewrite <- ?app_assoc.
Qed.

(** C8.  With a question typed in, a call of [chat] that returns has
    appended two entries to the messages and touched none of the
    earlier ones: a "user" entry holding the question, then an
    "assistant" entry holding what the language model answered. *)
Theorem chat_appends_question_and_answer {Image : Type} (E : Env Image)
    (s s' : State) (w w' : World Image) :
  user_question s <> "" ->
  chat E s w = (Ret tt, s', w') ->
  exists response,
    App_chat E (mkWorld (fs w) (stdout w)
                        (calls w ++ [call_from_config (get_app_config s)])
                        (store w))
             (get_app_config s) (user_question s) = Ret response
    /\ messages s' = (messages s ++ [mkMessage "user" (user_question s);
                                    mkMessage "assistant" response])%list.
Proof.
  intros Hasked Hrun. rewrite (chat_run E s w Hasked) in Hrun.
  destruct (App_from_config E w (get_app_config s)) as [[]|e]; [|done].
  match type of Hrun with context [App_chat E ?w1 ?cfg ?q] =>
    destruct (App_chat E w1 cfg q) as [response|e] eqn:Hanswer end; [|done].
  exists response. split; [reflexivity|]. by injection Hrun as <- _.
Qed.

Lemma chat_appends_question_and_answer_witness :
  user_question (Demo.asking "What is the due date?") <> ""
  /\ fst (fst (chat Demo.env (Demo.asking "What is the due date?") Demo.world0))
     = Ret tt
  /\ messages (snd (fst (chat Demo.env (Demo.asking "What is the due date?")
                              Demo.world0)))
     = [mkMessage "user" "What is the due date?";
        mkMessage "assistant" "Payment is due in 30 days."].
Proof.
  assert (Hasked : user_question (Demo.asking "What is the due date?") <> "")
    by discriminate.
  split; [exact Hasked|]. split; [reflexivity|].
  destruct (chat_appends_question_and_answer Demo.env
              (Demo.asking "What is the due date?")
              (snd (fst (chat Demo.env (Demo.asking "What is the due date?")
                              Demo.world0)))
              Demo.world0
              (snd (chat Demo.env (Demo.asking "What is the due date?") Demo.world0))
              Hasked eq_refl)
    as (response & Hanswer & Hmessages).
  rewrite Hmessages. injection Hanswer as <-. reflexivity.
Defined.

(** C9.  With a question typed in and the store opened, an exception
    raised by the language-model call leaves [chat] as it was raised,
    after the question was appended: the messages end with the "user"
    entry, no "assistant" entry follows, and the question is still
    pending. *)
Theorem chat_error_propagates {Image : Type} (E : Env Image)
    (s : State) (w : World Image) (e : exn) :
  user_question s <> "" ->
  App_from_config E w (get_app_config s) = Ret tt ->
  App_chat E (mkWorld (fs w) (stdout w)
                      (calls w ++ [call_from_config (get_app_config s)])
                      (store w))
           (get_app_config s) (user_question s) = Raise e ->
  let out := chat E s w in
  fst (fst out) = Raise e
  /\ messages (snd (fst out))
     = (messages s ++ [mkMessage "user" (user_question s)])%list
  /\ user_question (snd (fst out)) = user_question s.
Proof.
  intros Hasked Hopens Hanswer out. subst out.
  rewrite (chat_run E s w Hasked). cbv zeta. by rewrite Hopens, Hanswer.
Qed.

Lemma chat_error_propagates_witness :
  user_question (Demo.asking "Who signed?") <> ""
  /\ App_chat Demo.env
       (mkWorld ∅ [] [call_from_config (get_app_config (Demo.asking "Who signed?"))] ∅)
       (get_app_config (Demo.asking "Who signed?")) "Who signed?"
     = Raise Demo.ConnectionError
  /\ fst (fst (chat Demo.env (Demo.asking "Who signed?") Demo.world0))
     = Raise Demo.ConnectionError
  /\ messages (snd (fst (chat Demo.env (Demo.asking "Who signed?") Demo.world0)))
     = [mkMessage "user" "Who signed?"].
Proof.
  assert (Hasked : user_question (Demo.asking "Who signed?") <> "") by discriminate.
  split; [exact Hasked|]. split; [reflexivity|].
  destruct (chat_error_propagates Demo.env (Demo.asking "Who signed?") Demo.world0
              Demo.ConnectionError Hasked eq_refl eq_refl)
    as (Hraised & Hmessages & _).
  split; [exact Hraised | exact Hmessages].
Defined.

(** C10.  With no question typed in, [chat] returns at once: [self] and
    the world, and with it the log of library calls, are as they were. *)
Theorem chat_without_question {Image : Type} (E : Env Image)
    (s : State) (w : World Image) :
  user_question s = "" ->
  chat E s w = (Ret tt, s, w).
Proof.
  intros Hnone. unfold chat. run. by rewrite Hnone.
Qed.

Lemma chat_without_question_witness :
  user_question Demo.state0 = ""
  /\ chat Demo.env Demo.state0 Demo.world0 = (Ret tt, Demo.state0, Demo.world0).
Proof.
  split; [reflexivity|].
  exact (chat_without_question Demo.env Demo.state0 Demo.world0 eq_refl).
Defined.

(** ** Further properties of the handlers *)

(** *** [handle_upload] on every path *)

Lemma handle_upload_empty_run {Image : Type} (E : Env Image)
    (file : UploadFile) (rest : list UploadFile) (s : State) (w : World Image) :
  read file = [] ->
  handle_upload E (file :: rest) s w =
  (Ret tt,
   set_upload_status "File not saved properly or is empty!"
     (set_pdf_filename (filename file) s),
   mkWorld (<[upload_path E (filename file) := []]> (fs w)) (stdout w) (calls w)
           (store w)).
Proof.
  intros Hdata. unfold handle_upload. run. rewrite Hdata.
  repeat (rewrite lookup_insert_eq; simpl). reflexivity.
Qed.

(** What the ingestion part leaves behind, whatever the vector store
    answers. *)
Lemma handle_upload_ingest_effects {Image : Type} (E : Env Image)
    (file : UploadFile) (path text : string) (s : State) (w : World Image)
    (data : list byte) :
  fs w !! path = Some data ->
  let out := handle_upload_ingest E file path text s w in
  messages (snd (fst out)) = messages s
  /\ user_question (snd (fst out)) = user_question s
  /\ db_path (snd (fst out)) = db_path s
  /\ pdf_filename (snd (fst out)) = pdf_filename s
  /\ (knowledge_base_files (snd (fst out)) = knowledge_base_files s
      \/ (knowledge_base_files (snd (fst out))
          = (knowledge_base_files s ++ [pdf_filename s])%list
          /\ upload_status (snd (fst out))
             = "Processed and added " ++ pdf_filename s ++ " to the knowledge base!"
          /\ fst (fst out) = Ret tt))
  /\ exists st source,
       calls (snd out) = (calls w ++ st)%list
       /\ st `prefix_of` [call_from_config (get_app_config s);
                          call_add (get_app_config s) source "text"].
Proof.
  intros Hfile out. subst out. rewrite (handle_upload_ingest_run E _ _ _ _ _ _ Hfile).
  set (cfg := get_app_config s).
  destruct (App_from_config E w cfg) as [[]|e].
  - match goal with |- context [App_add E ?w2 cfg ?tmp "text"] =>
      destruct (App_add E w2 cfg tmp "text") as [[]|e] end;
      [|destruct (is_ValueError e)]; simpl;
      (do 4 (split; [reflexivity|])); (split; [by auto|]);
      eexists _, _; (split; [reflexivity|]); done.
  - simpl. do 4 (split; [reflexivity|]). split; [by left|].
    exists [call_from_config cfg], "".
    split; [reflexivity|]. by exists [call_add cfg "" "text"].
Qed.

(** What [handle_upload] leaves behind for an uploaded file, on every
    path through it. *)
Lemma handle_upload_effects {Image : Type} (E : Env Image)
    (file : UploadFile) (rest : list UploadFile) (s : State) (w : World Image) :
  let out := handle_upload E (file :: rest) s w in
  let path := upload_path E (filename file) in
  messages (snd (fst out)) = messages s
  /\ user_question (snd (fst out)) = user_question s
  /\ db_path (snd (fst out)) = db_path s
  /\ pdf_filename (snd (fst out)) = filename file
  /\ (knowledge_base_files (snd (fst out)) = knowledge_base_files s
      \/ (knowledge_base_files (snd (fst out))
          = (knowledge_base_files s ++ [filename file])%list
          /\ upload_status (snd (fst out))
             = "Processed and added " ++ filename file ++ " to the knowledge base!"
          /\ fst (fst out) = Ret tt))
  /\ exists parser ocr st source,
       calls (snd out) = (calls w ++ parser ++ ocr ++ st)%list
       /\ Forall (fun c => is_parser_call c = true) parser
       /\ Forall (fun c => is_ocr_call c = true) ocr
       /\ st `prefix_of` [call_from_config (get_app_config s);
                          call_add (get_app_config s) source "text"].
Proof.
  intros out path. subst out.
  assert (Hparser : Forall (fun c : Call Image => is_parser_call c = true)
                      (call_PdfReader path :: direct_calls E (read file))).
  { constructor; [reflexivity | apply direct_calls_parser]. }
  assert (Hocr : Forall (fun c : Call Image => is_ocr_call c = true)
                   (call_convert_from_path path :: ocr_calls E (read file))).
  { constructor; [reflexivity | apply ocr_calls_ocr]. }
  destruct (read file) as [|b data] eqn:Hread.
  { rewrite (handle_upload_empty_run E file rest s w Hread). simpl. fold path.
    do 4 (split; [reflexivity|]). split; [by left|].
    exists [], [], [], "". rewrite !app_nil_r.
    split; [reflexivity|]. split; [constructor|]. split; [constructor|].
    apply prefix_nil. }
  rewrite <- Hread in *.
  assert (Hdata : read file <> []) by (by rewrite Hread).
  destruct (direct_text E (read file)) as [direct|e] eqn:Hdirect.
  2: { rewrite (handle_upload_parse_error E file rest s w e Hdata Hdirect).
       simpl. fold path. do 4 (split; [reflexivity|]). split; [by left|].
       exists (call_PdfReader path :: direct_calls E (read file)), [], [], "".
       rewrite !app_nil_r. split; [reflexivity|]. split; [exact Hparser|].
       split; [constructor|]. apply prefix_nil. }
  rewrite (handle_upload_extracted E file rest s w direct Hdata Hdirect).
  cbv zeta. fold path.
  destruct (not_str (strip direct)).
  - destruct (not_str (strip (ocr_text E (read file)))).
    + simpl. do 4 (split; [reflexivity|]). split; [by left|].
      exists (call_PdfReader path :: direct_calls E (read file)),
             (call_convert_from_path path :: ocr_calls E (read file)), [], "".
      rewrite !app_nil_r, <- !app_assoc. split; [reflexivity|].
      split; [exact Hparser|]. split; [exact Hocr|]. apply prefix_nil.
    + match goal with |- context [handle_upload_ingest E file path ?t ?s2 ?w2] =>
        destruct (handle_upload_ingest_effects E file path t s2 w2 (read file))
          as (Hm & Hq & Hd & Hf & Hkb & st & source & Hcalls & Hst);
          [by simpl; rewrite lookup_insert_eq|]
      end.
      simpl in *. rewrite Hm, Hq, Hd, Hf. do 4 (split; [reflexivity|]).
      split; [exact Hkb|].
      exists (call_PdfReader path :: direct_calls E (read file)),
             (call_convert_from_path path :: ocr_calls E (read file)), st, source.
      rewrite Hcalls, <- !app_assoc. split; [reflexivity|].
      split; [exact Hparser|]. split; [exact Hocr|]. exact Hst.
  - match goal with |- context [handle_upload_ingest E file path ?t ?s2 ?w2] =>
      destruct (handle_upload_ingest_effects E file path t s2 w2 (read file))
        as (Hm & Hq & Hd & Hf & Hkb & st & source & Hcalls & Hst);
        [by simpl; rewrite lookup_insert_eq|]
    end.
    simpl in *. rewrite Hm, Hq, Hd, Hf. do 4 (split; [reflexivity|]).
    split; [exact Hkb|].
    exists (call_PdfReader path :: direct_calls E (read file)), [], st, source.
    rewrite Hcalls, <- !app_assoc. split; [reflexivity|].
    split; [exact Hparser|]. split; [constructor|]. exact Hst.
Qed.

(** [handle_upload] up to the hand-over to ingestion, when the Extractor
    yields a text that is not all white space. *)
Lemma handle_upload_to_ingest {Image : Type} (E : Env Image)
    (file : UploadFile) (rest : list UploadFile) (s : State) (w : World Image)
    (text : string) :
  read file <> [] ->
  extract E (read file) = Ret text ->
  strip text <> "" ->
  let path := upload_path E (filename file) in
  exists s2 w2,
    handle_upload E (file :: rest) s w = handle_upload_ingest E file path text s2 w2
    /\ fs w2 = <[path := read file]> (fs w)
    /\ store w2 = store w
    /\ knowledge_base_files s2 = knowledge_base_files s
    /\ pdf_filename s2 = filename file
    /\ get_app_config s2 = get_app_config s
    /\ (upload_status s2 = upload_status s
        \/ upload_status s2 = "No selectable text found in " ++ filename file
                              ++ ", performing OCR...")
    /\ exists new,
         calls w2 = (calls w ++ new)%list
         /\ Forall (fun c => is_store_call c = false) new.
Proof.
  intros Hdata Hextract Hstrip path. unfold extract in Hextract.
  destruct (direct_text E (read file)) as [direct|e] eqn:Hdirect; [|done].
  simpl in Hextract.
  rewrite (handle_upload_extracted E file rest s w direct Hdata Hdirect). cbv zeta.
  fold path. apply not_str_false in Hstrip.
  assert (Hparser : Forall (fun c : Call Image => is_store_call c = false)
                      (call_PdfReader path :: direct_calls E (read file))).
  { constructor; [reflexivity|].
    eapply Forall_impl; [apply direct_calls_parser|]. by intros []. }
  assert (Hocr : Forall (fun c : Call Image => is_store_call c = false)
                   (call_convert_from_path path :: ocr_calls E (read file))).
  { constructor; [reflexivity|].
    eapply Forall_impl; [apply ocr_calls_ocr|]. by intros []. }
  destruct (not_str (strip direct)); injection Hextract as <-.
  - rewrite Hstrip. eexists _, _. split; [reflexivity|]. simpl.
    do 5 (split; [reflexivity|]). split; [by right|].
    eexists. split; [by rewrite <- app_assoc|]. apply Forall_app. by split.
  - eexists _, _. split; [reflexivity|]. simpl.
    do 5 (split; [reflexivity|]). split; [by left|].
    eexists. split; [reflexivity|]. exact Hparser.
Qed.



(** X2.  A [ValueError] raised by [app.add] is caught: [handle_upload]
    returns with the status "Failed to process <filename>. Error:
    <error>", prints "Error adding file: <error>" last, and leaves the
    knowledge-base list as it was. *)
Theorem handle_upload_add_ValueError {Image : Type} (E : Env Image)
    (file : UploadFile) (rest : list UploadFile) (s : State) (w : World Image)
    (text : string) (e : exn) :
  read file <> [] ->
  extract E (read file) = Ret text ->
  strip text <> "" ->
  (forall w0, App_from_config E w0 (get_app_config s) = Ret tt) ->
  (forall w0 source, App_add E w0 (get_app_config s) source "text" = Raise e) ->
  is_ValueError e = true ->
  let out := handle_upload E (file :: rest) s w in
  fst (fst out) = Ret tt
  /\ upload_status (snd (fst out))
     = "Failed to process " ++ filename file ++ ". Error: " ++ exn_str e
  /\ knowledge_base_files (snd (fst out)) = knowledge_base_files s
  /\ last (stdout (snd out)) = Some ("Error adding file: " ++ exn_str e).
Proof.
  intros Hdata Hextract Hstrip Hopens Hadds Hclass out. subst out.
  destruct (handle_upload_to_ingest E file rest s w text Hdata Hextract Hstrip)
    as (s2 & w2 & -> & Hfs & _ & Hkb & Hname & Hcfg & _).
  erewrite handle_upload_ingest_run
    by (rewrite Hfs; apply lookup_insert_eq).
  rewrite Hcfg, Hopens, Hadds, Hclass. simpl. rewrite Hname, Hkb.
  do 3 (split; [reflexivity|]). by rewrite last_app.
Qed.

Lemma handle_upload_add_ValueError_witness :
  read Demo.contract_pdf <> []
  /\ extract (Demo.env_with Demo.images_of (Ret tt) (Raise Demo.EmptyDocument))
             (read Demo.contract_pdf) = Ret "Payment due in 30 days"
  /\ strip "Payment due in 30 days" <> ""
  /\ is_ValueError Demo.EmptyDocument = true
  /\ upload_status
       (snd (fst (handle_upload
                    (Demo.env_with Demo.images_of (Ret tt) (Raise Demo.EmptyDocument))
                    [Demo.contract_pdf] Demo.state0 Demo.world0)))
     = "Failed to process contract.pdf. Error: nothing to embed".
Proof.
  assert (Hdata : read Demo.contract_pdf <> []) by discriminate.
  assert (Hextract :
            extract (Demo.env_with Demo.images_of (Ret tt) (Raise Demo.EmptyDocument))
                    (read Demo.contract_pdf) = Ret "Payment due in 30 days")
    by (by vm_compute).
  assert (Hstrip : strip "Payment due in 30 days" <> "") by (vm_compute; discriminate).
  split; [exact Hdata|]. split; [exact Hextract|]. split; [exact Hstrip|].
  split; [reflexivity|].
  exact (proj1 (proj2 (handle_upload_add_ValueError _ Demo.contract_pdf []
                         Demo.state0 Demo.world0 _ Demo.EmptyDocument
                         Hdata Hextract Hstrip (fun _ => eq_refl)
                         (fun _ _ => eq_refl) eq_refl))).
Defined.

(** X3.  Any other exception raised by [app.add] is not caught: it
    leaves [handle_upload], after the add call was made, with the
    knowledge-base list as it was and the status still the one from
    before the upload or the notice of the OCR fall-back. *)
Theorem handle_upload_add_error_propagates {Image : Type} (E : Env Image)
    (file : UploadFile) (rest : list UploadFile) (s : State) (w : World Image)
    (text : string) (e : exn) :
  read file <> [] ->
  extract E (read file) = Ret text ->
  strip text <> "" ->
  (forall w0, App_from_config E w0 (get_app_config s) = Ret tt) ->
  (forall w0 source, App_add E w0 (get_app_config s) source "text" = Raise e) ->
  is_ValueError e = false ->
  let out := handle_upload E (file :: rest) s w in
  fst (fst out) = Raise e
  /\ knowledge_base_files (snd (fst out)) = knowledge_base_files s
  /\ (upload_status (snd (fst out)) = upload_status s
      \/ upload_status (snd (fst out))
         = "No selectable text found in " ++ filename file ++ ", performing OCR...")
  /\ exists source,
       last (calls (snd out)) = Some (call_add (get_app_config s) source "text").
Proof.
  intros Hdata Hextract Hstrip Hopens Hadds Hclass out. subst out.
  destruct (handle_upload_to_ingest E file rest s w text Hdata Hextract Hstrip)
    as (s2 & w2 & -> & Hfs & _ & Hkb & _ & Hcfg & Hstatus & _).
  erewrite handle_upload_ingest_run
    by (rewrite Hfs; apply lookup_insert_eq).
  rewrite Hcfg, Hopens, Hadds, Hclass. simpl.
  do 3 (split; [done|]). eexists. by rewrite last_app.
Qed.

Lemma handle_upload_add_error_propagates_witness :
  read Demo.scan_pdf <> []
  /\ extract (Demo.env_with Demo.images_of (Ret tt) (Raise Demo.StoreLocked))
             (read Demo.scan_pdf) = Ret ("Invoice #123" ++ blank_line)
  /\ strip ("Invoice #123" ++ blank_line) <> ""
  /\ is_ValueError Demo.StoreLocked = false
  /\ fst (fst (handle_upload
                 (Demo.env_with Demo.images_of (Ret tt) (Raise Demo.StoreLocked))
                 [Demo.scan_pdf] Demo.state0 Demo.world0))
     = Raise Demo.StoreLocked.
Proof.
  assert (Hdata : read Demo.scan_pdf <> []) by discriminate.
  assert (Hextract :
            extract (Demo.env_with Demo.images_of (Ret tt) (Raise Demo.StoreLocked))
                    (read Demo.scan_pdf) = Ret ("Invoice #123" ++ blank_line))
    by (by vm_compute).
  assert (Hstrip : strip ("Invoice #123" ++ blank_line) <> "")
    by (vm_compute; discriminate).
  split; [exact Hdata|]. split; [exact Hextract|]. split; [exact Hstrip|].
  split; [reflexivity|].
  exact (proj1 (handle_upload_add_error_propagates _ Demo.scan_pdf []
                  Demo.state0 Demo.world0 _ Demo.StoreLocked
                  Hdata Hextract Hstrip (fun _ => eq_refl)
                  (fun _ _ => eq_refl) eq_refl)).
Defined.

(** X4.  An exception raised by [App.from_config] during an upload is
    not caught either: it leaves [handle_upload] before anything is
    written for the vector store.  The files are those before the upload
    plus the uploaded one, the last library call is the failed
    [from_config], and the knowledge-base list is as it was. *)
Theorem handle_upload_store_unavailable {Image : Type} (E : Env Image)
    (file : UploadFile) (rest : list UploadFile) (s : State) (w : World Image)
    (text : string) (e : exn) :
  read file <> [] ->
  extract E (read file) = Ret text ->
  strip text <> "" ->
  (forall w0, App_from_config E w0 (get_app_config s) = Raise e) ->
  let out := handle_upload E (file :: rest) s w in
  fst (fst out) = Raise e
  /\ knowledge_base_files (snd (fst out)) = knowledge_base_files s
  /\ fs (snd out) = <[upload_path E (filename file) := read file]> (fs w)
  /\ store (snd out) = store w
  /\ last (calls (snd out)) = Some (call_from_config (get_app_config s)).
Proof.
  intros Hdata Hextract Hstrip Hfails out. subst out.
  destruct (handle_upload_to_ingest E file rest s w text Hdata Hextract Hstrip)
    as (s2 & w2 & -> & Hfs & Hstore & Hkb & _ & Hcfg & _).
  erewrite handle_upload_ingest_run
    by (rewrite Hfs; apply lookup_insert_eq).
  rewrite Hcfg, Hfails. simpl. do 4 (split; [done|]). by rewrite last_app.
Qed.

Lemma handle_upload_store_unavailable_witness :
  read Demo.contract_pdf <> []
  /\ extract (Demo.env_with Demo.images_of (Raise Demo.StoreLocked) (Ret tt))
             (read Demo.contract_pdf) = Ret "Payment due in 30 days"
  /\ strip "Payment due in 30 days" <> ""
  /\ fst (fst (handle_upload
                 (Demo.env_with Demo.images_of (Raise Demo.StoreLocked) (Ret tt))
                 [Demo.contract_pdf] Demo.state0 Demo.world0))
     = Raise Demo.StoreLocked.
Proof.
  assert (Hdata : read Demo.contract_pdf <> []) by discriminate.
  assert (Hextract :
            extract (Demo.env_with Demo.images_of (Raise Demo.StoreLocked) (Ret tt))
                    (read Demo.contract_pdf) = Ret "Payment due in 30 days")
    by (by vm_compute).
  assert (Hstrip : strip "Payment due in 30 days" <> "") by (vm_compute; discriminate).
  split; [exact Hdata|]. split; [exact Hextract|]. split; [exact Hstrip|].
  exact (proj1 (handle_upload_store_unavailable _ Demo.contract_pdf []
                  Demo.state0 Demo.world0 _ Demo.StoreLocked
                  Hdata Hextract Hstrip (fun _ => eq_refl))).
Defined.

(** X5.  Whatever is uploaded and however the upload ends,
    [handle_upload] leaves the conversation alone (the messages, the
    pending question and the directory of the vector store), and the
    knowledge-base list is either as it was or longer by the name of the
    first file; the latter only when the handler returns with the
    status "Processed and added <filename> to the knowledge base!". *)
Theorem handle_upload_keeps_conversation {Image : Type} (E : Env Image)
    (files : list UploadFile) (s : State) (w : World Image) :
  let out := handle_upload E files s w in
  messages (snd (fst out)) = messages s
  /\ user_question (snd (fst out)) = user_question s
  /\ db_path (snd (fst out)) = db_path s
  /\ (knowledge_base_files (snd (fst out)) = knowledge_base_files s
      \/ exists file rest,
           files = file :: rest
           /\ knowledge_base_files (snd (fst out))
              = (knowledge_base_files s ++ [filename file])%list
           /\ upload_status (snd (fst out))
              = "Processed and added " ++ filename file ++ " to the knowledge base!"
           /\ fst (fst out) = Ret tt).
Proof.
  destruct files as [|file rest]; intros out; subst out.
  - simpl. do 3 (split; [reflexivity|]). by left.
  - destruct (handle_upload_effects E file rest s w)
      as (Hm & Hq & Hd & _ & Hkb & _).
    do 3 (split; [assumption|]). destruct Hkb as [Hkb|Hkb]; [by left|].
    right. by exists file, rest.
Qed.

(** X7.  The libraries are called in a fixed order during an upload:
    first the PDF parser, then the rasterizer and the OCR engine, then
    the vector store, which is opened at most once and given at most
    one document, as text; [app.chat] is not called. *)
Theorem handle_upload_call_order {Image : Type} (E : Env Image)
    (files : list UploadFile) (s : State) (w : World Image) :
  let out := handle_upload E files s w in
  exists parser ocr st source,
    calls (snd out) = (calls w ++ parser ++ ocr ++ st)%list
    /\ Forall (fun c => is_parser_call c = true) parser
    /\ Forall (fun c => is_ocr_call c = true) ocr
    /\ st `prefix_of` [call_from_config (get_app_config s);
                       call_add (get_app_config s) source "text"].
Proof.
  destruct files as [|file rest]; intros out; subst out.
  - exists [], [], [], "". simpl. rewrite app_nil_r.
    split; [reflexivity|]. split; [constructor|]. split; [constructor|].
    apply prefix_nil.
  - by destruct (handle_upload_effects E file rest s w)
      as (_ & _ & _ & _ & _ & Hcalls).
Qed.

(** *** The OCR path on every input *)

Lemma extract_text_with_ocr_missing_run {Image : Type} (E : Env Image)
    (path : string) (s : State) (w : World Image) :
  fs w !! path = None ->
  extract_text_with_ocr E path s w =
  (Ret "", s,
   mkWorld (fs w)
           (stdout w ++ [("Starting OCR extraction for: " ++ path)%string;
                         ("Error during OCR: "
                          ++ exn_str (convert_from_path_missing E path))%string])
           (calls w ++ [call_convert_from_path path]) (store w)).
Proof.
  intros Hfile. unfold extract_text_with_ocr. run. rewrite Hfile. simpl.
  by rewrite <- !app_assoc.
Qed.

(** X8.  [extract_text_with_ocr] never raises and never touches [self],
    the files or the vector store, whatever the path names and whatever
    the rasterizer and the OCR engine do: it returns a text, having
    printed its first line and called the rasterizer and then only the
    OCR engine. *)
Theorem extract_text_with_ocr_never_raises {Image : Type} (E : Env Image)
    (path : string) (s : State) (w : World Image) :
  exists text lines engine,
    extract_text_with_ocr E path s w =
    (Ret text, s,
     mkWorld (fs w)
             (stdout w ++ ("Starting OCR extraction for: " ++ path)%string :: lines)
             (calls w ++ call_convert_from_path path :: engine)
             (store w))
    /\ Forall (fun c => exists image, c = call_image_to_string image) engine.
Proof.
  destruct (fs w !! path) as [data|] eqn:Hfile.
  - rewrite (extract_text_with_ocr_run E path data s w Hfile).
    eexists _, _, _. split; [reflexivity|].
    unfold ocr_calls. destruct (convert_from_path E data) as [images|e]; [|constructor].
    induction images as [|image images IH]; simpl; [constructor|].
    apply Forall_app. split.
    + unfold ocr_page_calls. destruct (preprocess_spec E image); repeat constructor.
      by eexists.
    + destruct (ocr_page E image); [apply IH | constructor].
  - rewrite (extract_text_with_ocr_missing_run E path s w Hfile).
    eexists _, _, []. split; [reflexivity | constructor].
Qed.

(** X9.  When the rasterizer raises, on the file at the path or because
    no file is there, the OCR path yields the empty text: the
    rasterizer's error is printed after the first line, and the OCR
    engine is not called. *)
Theorem extract_text_with_ocr_rasterizer_error {Image : Type} (E : Env Image)
    (path : string) (s : State) (w : World Image) (e : exn) :
  match fs w !! path with
  | Some data => convert_from_path E data = Raise e
  | None => convert_from_path_missing E path = e
  end ->
  extract_text_with_ocr E path s w =
  (Ret "", s,
   mkWorld (fs w)
           (stdout w ++ [("Starting OCR extraction for: " ++ path)%string;
                         ("Error during OCR: " ++ exn_str e)%string])
           (calls w ++ [call_convert_from_path path]) (store w)).
Proof.
  destruct (fs w !! path) as [data|] eqn:Hfile.
  - intros Hraises. rewrite (extract_text_with_ocr_run E path data s w Hfile).
    unfold ocr_text, ocr_prints, ocr_calls, ocr_error. by rewrite Hraises.
  - intros <-. by apply extract_text_with_ocr_missing_run.
Qed.

Lemma extract_text_with_ocr_rasterizer_error_witness :
  convert_from_path
    (Demo.env_with (fun _ => Raise Demo.PopplerError) (Ret tt) (Ret tt))
    (read Demo.scan_pdf) = Raise Demo.PopplerError
  /\ extract_text_with_ocr
       (Demo.env_with (fun _ => Raise Demo.PopplerError) (Ret tt) (Ret tt))
       "uploaded_files/scan.pdf" Demo.state0 (Demo.saved Demo.scan_pdf)
     = (Ret "", Demo.state0,
        mkWorld (fs (Demo.saved Demo.scan_pdf))
                ["Starting OCR extraction for: uploaded_files/scan.pdf";
                 "Error during OCR: Unable to get page count"]
                [call_convert_from_path "uploaded_files/scan.pdf"] ∅).
Proof.
  split; [reflexivity|].
  apply (extract_text_with_ocr_rasterizer_error
           (Demo.env_with (fun _ => Raise Demo.PopplerError) (Ret tt) (Ret tt))
           "uploaded_files/scan.pdf" Demo.state0 (Demo.saved Demo.scan_pdf)
           Demo.PopplerError).
  replace (fs (Demo.saved Demo.scan_pdf) !! "uploaded_files/scan.pdf")
    with (Some (read Demo.scan_pdf)) by (symmetry; apply lookup_insert_eq).
  reflexivity.
Defined.

(** X10.  When no page has a character that is not white space and the
    rasterizer raises, the upload ends with the status "OCR failed to
    extract meaningful content from <filename>": the rasterizer's error
    is only printed, the vector store is left alone and the
    knowledge-base list is as it was. *)
Theorem handle_upload_rasterizer_error {Image : Type} (E : Env Image)
    (file : UploadFile) (rest : list UploadFile) (s : State) (w : World Image)
    (texts : list string) (e : exn) :
  read file <> [] ->
  PdfReader_pages E (read file) = Ret (map Ret texts) ->
  forallb all_space texts = true ->
  convert_from_path E (read file) = Raise e ->
  let out := handle_upload E (file :: rest) s w in
  fst (fst out) = Ret tt
  /\ upload_status (snd (fst out))
     = "OCR failed to extract meaningful content from " ++ filename file
  /\ knowledge_base_files (snd (fst out)) = knowledge_base_files s
  /\ last (stdout (snd out)) = Some ("Error during OCR: " ++ exn_str e)
  /\ last (calls (snd out))
     = Some (call_convert_from_path (upload_path E (filename file)))
  /\ store (snd out) = store w.
Proof.
  intros Hdata Hpages Hspace Hraises out. subst out.
  destruct (direct_all_ok E _ _ Hpages) as [Hdirect _].
  rewrite (handle_upload_extracted E file rest s w _ Hdata Hdirect). cbv zeta.
  rewrite <- all_space_concat in Hspace. apply strip_empty, not_str_true in Hspace.
  rewrite Hspace. unfold ocr_text, ocr_prints, ocr_calls, ocr_error.
  rewrite Hraises. simpl. do 3 (split; [reflexivity|]).
  split; [by rewrite last_app|]. split; [by rewrite last_app | reflexivity].
Qed.

Lemma handle_upload_rasterizer_error_witness :
  read Demo.scan_pdf <> []
  /\ PdfReader_pages
       (Demo.env_with (fun _ => Raise Demo.PopplerError) (Ret tt) (Ret tt))
       (read Demo.scan_pdf) = Ret (map Ret [""])
  /\ forallb all_space [""] = true
  /\ upload_status
       (snd (fst (handle_upload
                    (Demo.env_with (fun _ => Raise Demo.PopplerError) (Ret tt) (Ret tt))
                    [Demo.scan_pdf] Demo.state0 Demo.world0)))
     = "OCR failed to extract meaningful content from scan.pdf".
Proof.
  assert (Hdata : read Demo.scan_pdf <> []) by discriminate.
  split; [exact Hdata|]. split; [reflexivity|]. split; [reflexivity|].
  exact (proj1 (proj2 (handle_upload_rasterizer_error
                         (Demo.env_with (fun _ => Raise Demo.PopplerError)
                                        (Ret tt) (Ret tt))
                         Demo.scan_pdf [] Demo.state0 Demo.world0 [""]
                         Demo.PopplerError Hdata eq_refl eq_refl eq_refl))).
Defined.

(** Ingestion always starts by opening the vector store. *)
Lemma handle_upload_ingest_opens {Image : Type} (E : Env Image)
    (file : UploadFile) (path text : string) (s : State) (w : World Image)
    (data : list byte) :
  fs w !! path = Some data ->
  exists later,
    calls (snd (handle_upload_ingest E file path text s w))
    = (calls w ++ call_from_config (get_app_config s) :: later)%list.
Proof.
  intros Hfile. rewrite (handle_upload_ingest_run E _ _ _ _ _ _ Hfile).
  set (cfg := get_app_config s).
  destruct (App_from_config E w cfg) as [[]|e]; [|by exists []].
  match goal with |- context [App_add E ?w2 cfg ?tmp "text"] =>
    destruct (App_add E w2 cfg tmp "text") as [[]|e] end;
    [|destruct (is_ValueError e)]; by eexists.
Qed.

(** X11.  For a scanned document (no page with embedded text other than
    white space) whose rasterized pages are all read by the OCR engine,
    the vector store is opened if and only if some page's OCR text has a
    character that is not white space; otherwise the upload ends with
    the status "OCR failed to extract meaningful content from
    <filename>". *)
Theorem handle_upload_scanned_blank_pages {Image : Type} (E : Env Image)
    (file : UploadFile) (rest : list UploadFile) (s : State) (w : World Image)
    (texts ocr_texts : list string) (images processed : list Image) :
  read file <> [] ->
  PdfReader_pages E (read file) = Ret (map Ret texts) ->
  forallb all_space texts = true ->
  convert_from_path E (read file) = Ret images ->
  map (preprocess_spec E) images = map Ret processed ->
  map (image_to_string E) processed = map Ret ocr_texts ->
  let out := handle_upload E (file :: rest) s w in
  (forallb all_space ocr_texts = true ->
   fst (fst out) = Ret tt
   /\ upload_status (snd (fst out))
      = "OCR failed to extract meaningful content from " ++ filename file)
  /\ exists new,
       calls (snd out) = (calls w ++ new)%list
       /\ (In (call_from_config (get_app_config s)) new
           <-> forallb all_space ocr_texts = false).
Proof.
  intros Hdata Hpages Hspace Himages Hpre Hread out. subst out.
  destruct (direct_all_ok E _ _ Hpages) as [Hdirect _].
  destruct (ocr_all_ok E _ _ _ _ Himages Hpre Hread) as (Hocr & _ & _).
  rewrite (handle_upload_extracted E file rest s w _ Hdata Hdirect). cbv zeta.
  rewrite <- all_space_concat in Hspace. apply strip_empty, not_str_true in Hspace.
  rewrite Hspace.
  assert (Hquiet : Forall (fun c : Call Image => is_store_call c = false)
                     (call_PdfReader (upload_path E (filename file))
                        :: direct_calls E (read file)
                        ++ call_convert_from_path (upload_path E (filename file))
                        :: ocr_calls E (read file))%list).
  { constructor; [reflexivity|]. apply Forall_app. split.
    - eapply Forall_impl; [apply direct_calls_parser|]. by intros [].
    - constructor; [reflexivity|].
      eapply Forall_impl; [apply ocr_calls_ocr|]. by intros []. }
  destruct (forallb all_space ocr_texts) eqn:Hblank.
  - rewrite <- all_space_pages, <- Hocr in Hblank.
    apply strip_empty, not_str_true in Hblank. rewrite Hblank. simpl.
    split; [done|]. eexists. split; [by rewrite <- app_assoc|].
    split; [|done]. intros Hin%list_elem_of_In.
    rewrite Forall_forall in Hquiet. by specialize (Hquiet _ Hin).
  - assert (Hfull : not_str (strip (ocr_text E (read file))) = false).
    { apply not_str_false. intros Hempty%strip_empty.
      by rewrite Hocr, all_space_pages, Hblank in Hempty. }
    rewrite Hfull. split; [done|].
    match goal with |- context [handle_upload_ingest E file ?path ?t ?s2 ?w2] =>
      destruct (handle_upload_ingest_opens E file path t s2 w2 (read file))
        as (later & Hcalls); [by simpl; rewrite lookup_insert_eq|]
    end.
    rewrite Hcalls. simpl. eexists. split; [by rewrite <- !app_assoc|].
    split; [done|]. intros _. simpl. right.
    apply in_or_app. right. right. apply in_or_app. right. by left.
Qed.

Lemma handle_upload_scanned_blank_pages_witness :
  read Demo.blank_pdf <> []
  /\ PdfReader_pages Demo.env (read Demo.blank_pdf) = Ret (map Ret [""])
  /\ forallb all_space [""] = true
  /\ convert_from_path Demo.env (read Demo.blank_pdf) = Ret ["empty"]
  /\ map (preprocess_spec Demo.env) ["empty"] = map Ret ["sharp(contrast(gray(empty)))"]
  /\ map (image_to_string Demo.env) ["sharp(contrast(gray(empty)))"] = map Ret [" "]
  /\ forallb all_space [" "] = true
  /\ upload_status (snd (fst (handle_upload Demo.env [Demo.blank_pdf]
                                            Demo.state0 Demo.world0)))
     = "OCR failed to extract meaningful content from blank.pdf".
Proof.
  assert (Hdata : read Demo.blank_pdf <> []) by discriminate.
  split; [exact Hdata|]. do 6 (split; [reflexivity|]).
  destruct (handle_upload_scanned_blank_pages Demo.env Demo.blank_pdf []
              Demo.state0 Demo.world0 [""] [" "] ["empty"]
              ["sharp(contrast(gray(empty)))"] Hdata eq_refl eq_refl eq_refl
              eq_refl eq_refl) as [Hblank _].
  exact (proj2 (Hblank eq_refl)).
Defined.

(** *** [chat] on every path *)

Lemma chat_idle_run {Image : Type} (E : Env Image) (s : State) (w : World Image) :
  user_question s = "" -> chat E s w = (Ret tt, s, w).
Proof. intros Hnone. unfold chat. run. by rewrite Hnone. Qed.

Lemma paired_app_both (l l2 : list Message) :
  (paired l = true -> paired (l ++ l2) = paired l2)
  /\ (forall q, paired (q :: l) = true -> paired ((q :: l) ++ l2) = paired l2).
Proof.
  induction l as [|a l [IH1 IH2]]; (split; [|intros q]); simpl; try done.
  - by apply IH2.
  - intros [Hroles Hrest]%andb_true_iff. by rewrite Hroles, IH1.
Qed.

Lemma paired_app (l l2 : list Message) :
  paired l = true -> paired (l ++ l2) = paired l2.
Proof. apply paired_app_both. Qed.

(** X12.  However it ends, [chat] leaves the uploads alone: the
    knowledge-base list, the upload status, the file name and the
    directory of the vector store keep their values, and so do the
    files, the printed lines and the contents of the store.  Messages
    are only appended, and the only library calls are one
    [App.from_config] and then one [app.chat] with the pending
    question. *)
Theorem chat_keeps_uploads {Image : Type} (E : Env Image)
    (s : State) (w : World Image) :
  let out := chat E s w in
  knowledge_base_files (snd (fst out)) = knowledge_base_files s
  /\ upload_status (snd (fst out)) = upload_status s
  /\ pdf_filename (snd (fst out)) = pdf_filename s
  /\ db_path (snd (fst out)) = db_path s
  /\ fs (snd out) = fs w
  /\ stdout (snd out) = stdout w
  /\ store (snd out) = store w
  /\ (exists added, messages (snd (fst out)) = (messages s ++ added)%list)
  /\ exists st,
       calls (snd out) = (calls w ++ st)%list
       /\ st `prefix_of` [call_from_config (get_app_config s);
                          call_chat (get_app_config s) (user_question s)].
Proof.
  intros out. subst out. destruct (user_question s) as [|c q] eqn:Hquestion.
  - rewrite (chat_idle_run E s w Hquestion). simpl. do 7 (split; [reflexivity|]).
    split; [exists []; by rewrite app_nil_r|].
    exists []. split; [by rewrite app_nil_r | apply prefix_nil].
  - assert (Hasked : user_question s <> "") by (by rewrite Hquestion).
    rewrite (chat_run E s w Hasked). cbv zeta. rewrite Hquestion.
    destruct (App_from_config E w (get_app_config s)) as [[]|e].
    + match goal with |- context [App_chat E ?w1 ?cfg ?question] =>
        destruct (App_chat E w1 cfg question) as [response|e] end; simpl;
        (do 7 (split; [reflexivity|])); (split; [by eexists|]);
        eexists; (split; [reflexivity|]); done.
    + simpl. do 7 (split; [reflexivity|]).
      split; [exists []; by rewrite app_nil_r|].
      eexists. split; [reflexivity|]. by eexists [_].
Qed.

(** X13.  A call of [chat] that returns with a question typed in has
    cleared the question, so that a second call right after it does
    nothing: no second question is asked and no message is added. *)
Theorem chat_twice {Image : Type} (E : Env Image)
    (s s' : State) (w w' : World Image) :
  user_question s <> "" ->
  chat E s w = (Ret tt, s', w') ->
  user_question s' = ""
  /\ chat E s' w' = (Ret tt, s', w').
Proof.
  intros Hasked Hrun. rewrite (chat_run E s w Hasked) in Hrun.
  destruct (App_from_config E w (get_app_config s)) as [[]|e]; [|done].
  match type of Hrun with context [App_chat E ?w1 ?cfg ?q] =>
    destruct (App_chat E w1 cfg q) as [response|e] end; [|done].
  injection Hrun as <- <-. split; [reflexivity|]. by apply chat_idle_run.
Qed.

Lemma chat_twice_witness :
  user_question (Demo.asking "What is the due date?") <> ""
  /\ user_question
       (snd (fst (chat Demo.env (Demo.asking "What is the due date?") Demo.world0)))
     = "".
Proof.
  assert (Hasked : user_question (Demo.asking "What is the due date?") <> "")
    by discriminate.
  split; [exact Hasked|].
  exact (proj1 (chat_twice Demo.env (Demo.asking "What is the due date?")
                  (snd (fst (chat Demo.env (Demo.asking "What is the due date?")
                                  Demo.world0)))
                  Demo.world0
                  (snd (chat Demo.env (Demo.asking "What is the due date?")
                             Demo.world0))
                  Hasked eq_refl)).
Defined.

(** X14.  When [App.from_config] raises in [chat], the exception leaves
    [chat] before the question is recorded: [self] is unchanged (no
    message is appended, the question is still pending) and the language
    model is not called. *)
Theorem chat_store_unavailable {Image : Type} (E : Env Image)
    (s : State) (w : World Image) (e : exn) :
  user_question s <> "" ->
  App_from_config E w (get_app_config s) = Raise e ->
  chat E s w =
  (Raise e, s,
   mkWorld (fs w) (stdout w) (calls w ++ [call_from_config (get_app_config s)])
           (store w)).
Proof.
  intros Hasked Hfails. rewrite (chat_run E s w Hasked). cbv zeta.
  by rewrite Hfails.
Qed.

Lemma chat_store_unavailable_witness :
  user_question (Demo.asking "Who signed?") <> ""
  /\ fst (chat (Demo.env_with Demo.images_of (Raise Demo.StoreLocked) (Ret tt))
               (Demo.asking "Who signed?") Demo.world0)
     = (Raise Demo.StoreLocked, Demo.asking "Who signed?").
Proof.
  assert (Hasked : user_question (Demo.asking "Who signed?") <> "") by discriminate.
  split; [exact Hasked|].
  by rewrite (chat_store_unavailable
                (Demo.env_with Demo.images_of (Raise Demo.StoreLocked) (Ret tt))
                (Demo.asking "Who signed?") Demo.world0 Demo.StoreLocked
                Hasked eq_refl).
Defined.

(** X15.  A conversation made of question-and-answer pairs stays one
    over every call of [chat] that returns. *)
Theorem chat_keeps_pairs {Image : Type} (E : Env Image)
    (s s' : State) (w w' : World Image) :
  paired (messages s) = true ->
  chat E s w = (Ret tt, s', w') ->
  paired (messages s') = true.
Proof.
  intros Hpaired Hrun. destruct (user_question s) as [|c q] eqn:Hquestion.
  - rewrite (chat_idle_run E s w Hquestion) in Hrun. by injection Hrun as <- _.
  - assert (Hasked : user_question s <> "") by (by rewrite Hquestion).
    rewrite (chat_run E s w Hasked) in Hrun.
    destruct (App_from_config E w (get_app_config s)) as [[]|e]; [|done].
    match type of Hrun with context [App_chat E ?w1 ?cfg ?question] =>
      destruct (App_chat E w1 cfg question) as [response|e] end; [|done].
    injection Hrun as <- _. simpl. by rewrite paired_app.
Qed.

Lemma chat_keeps_pairs_witness :
  paired (messages (Demo.asking_again "What is the due date?")) = true
  /\ fst (fst (chat Demo.env (Demo.asking_again "What is the due date?") Demo.world0))
     = Ret tt
  /\ length (messages (snd (fst (chat Demo.env
                                      (Demo.asking_again "What is the due date?")
                                      Demo.world0)))) = 4
  /\ paired (messages (snd (fst (chat Demo.env
                                      (Demo.asking_again "What is the due date?")
                                      Demo.world0)))) = true.
Proof.
  split; [reflexivity|]. split; [reflexivity|]. split; [reflexivity|].
  exact (chat_keeps_pairs Demo.env (Demo.asking_again "What is the due date?")
           (snd (fst (chat Demo.env (Demo.asking_again "What is the due date?")
                           Demo.world0)))
           Demo.world0
           (snd (chat Demo.env (Demo.asking_again "What is the due date?")
                      Demo.world0))
           eq_refl eq_refl).
Defined.

(** X16.  A failed language-model call breaks the pairing: from a
    conversation of question-and-answer pairs, a [chat] in which
    [app.chat] raises leaves messages that are no longer such a
    sequence, the last question being without an answer. *)
Theorem chat_error_breaks_pairs {Image : Type} (E : Env Image)
    (s : State) (w : World Image) (e : exn) :
  paired (messages s) = true ->
  user_question s <> "" ->
  App_from_config E w (get_app_config s) = Ret tt ->
  App_chat E (mkWorld (fs w) (stdout w)
                      (calls w ++ [call_from_config (get_app_config s)])
                      (store w))
           (get_app_config s) (user_question s) = Raise e ->
  paired (messages (snd (fst (chat E s w)))) = false
  /\ last (messages (snd (fst (chat E s w))))
     = Some (mkMessage "user" (user_question s)).
Proof.
  intros Hpaired Hasked Hopens Hanswer.
  rewrite (chat_run E s w Hasked). cbv zeta. rewrite Hopens, Hanswer. simpl.
  split; [by rewrite paired_app | by rewrite last_app].
Qed.

Lemma chat_error_breaks_pairs_witness :
  paired (messages (Demo.asking_again "Who signed?")) = true
  /\ user_question (Demo.asking_again "Who signed?") <> ""
  /\ paired (messages (snd (fst (chat Demo.env (Demo.asking_again "Who signed?")
                                      Demo.world0)))) = false.
Proof.
  assert (Hasked : user_question (Demo.asking_again "Who signed?") <> "")
    by discriminate.
  split; [reflexivity|]. split; [exact Hasked|].
  exact (proj1 (chat_error_breaks_pairs Demo.env (Demo.asking_again "Who signed?")
                  Demo.world0 Demo.ConnectionError eq_refl Hasked eq_refl eq_refl)).
Defined.

(** *** Uploads one after the other *)

(** A successful upload, as a step on [self]. *)
Lemma handle_upload_success_run {Image : Type} (E : Env Image)
    (file : UploadFile) (rest : list UploadFile) (s : State) (w : World Image)
    (text : string) :
  read file <> [] ->
  extract E (read file) = Ret text ->
  strip text <> "" ->
  (forall w0, App_from_config E w0 (get_app_config s) = Ret tt) ->
  (forall w0 source, App_add E w0 (get_app_config s) source "text" = Ret tt) ->
  let out := handle_upload E (file :: rest) s w in
  fst (fst out) = Ret tt
  /\ knowledge_base_files (snd (fst out))
     = (knowledge_base_files s ++ [filename file])%list
  /\ get_app_config (snd (fst out)) = get_app_config s.
Proof.
  intros Hdata Hextract Hstrip Hopens Hadds out. subst out.
  destruct (handle_upload_to_ingest E file rest s w text Hdata Hextract Hstrip)
    as (s2 & w2 & -> & Hfs & _ & Hkb & Hname & Hcfg & _).
  erewrite handle_upload_ingest_run
    by (rewrite Hfs; apply lookup_insert_eq).
  rewrite Hcfg, Hopens, Hadds. simpl. rewrite Hname, Hkb.
  split; [reflexivity|]. split; [reflexivity|].
  unfold get_app_config in *. simpl. exact Hcfg.
Qed.

(** X17.  The knowledge-base list records the successful uploads in the
    order they were made: after two of them it is the former list
    followed by the first and then the second file name. *)
Theorem handle_upload_twice_in_order {Image : Type} (E : Env Image)
    (first second : UploadFile) (s : State) (w : World Image)
    (text1 text2 : string) :
  read first <> [] -> extract E (read first) = Ret text1 -> strip text1 <> "" ->
  read second <> [] -> extract E (read second) = Ret text2 -> strip text2 <> "" ->
  (forall w0, App_from_config E w0 (get_app_config s) = Ret tt) ->
  (forall w0 source, App_add E w0 (get_app_config s) source "text" = Ret tt) ->
  let out1 := handle_upload E [first] s w in
  let out2 := handle_upload E [second] (snd (fst out1)) (snd out1) in
  fst (fst out1) = Ret tt
  /\ fst (fst out2) = Ret tt
  /\ knowledge_base_files (snd (fst out2))
     = (knowledge_base_files s ++ [filename first; filename second])%list.
Proof.
  intros Hdata1 Hextract1 Hstrip1 Hdata2 Hextract2 Hstrip2 Hopens Hadds out1 out2.
  destruct (handle_upload_success_run E first [] s w text1
              Hdata1 Hextract1 Hstrip1 Hopens Hadds) as (Hret1 & Hkb1 & Hcfg).
  fold out1 in Hret1, Hkb1, Hcfg.
  destruct (handle_upload_success_run E second [] (snd (fst out1)) (snd out1) text2
              Hdata2 Hextract2 Hstrip2) as (Hret2 & Hkb2 & _).
  { intros w0. rewrite Hcfg. apply Hopens. }
  { intros w0 source. rewrite Hcfg. apply Hadds. }
  fold out2 in Hret2, Hkb2.
  split; [exact Hret1|]. split; [exact Hret2|].
  by rewrite Hkb2, Hkb1, <- app_assoc.
Qed.

Lemma handle_upload_twice_in_order_witness :
  read Demo.contract_pdf <> []
  /\ extract Demo.env (read Demo.contract_pdf) = Ret "Payment due in 30 days"
  /\ strip "Payment due in 30 days" <> ""
  /\ read Demo.scan_pdf <> []
  /\ extract Demo.env (read Demo.scan_pdf) = Ret ("Invoice #123" ++ blank_line)
  /\ strip ("Invoice #123" ++ blank_line) <> ""
  /\ knowledge_base_files
       (snd (fst (handle_upload Demo.env [Demo.scan_pdf]
                    (snd (fst (handle_upload Demo.env [Demo.contract_pdf]
                                 Demo.state0 Demo.world0)))
                    (snd (handle_upload Demo.env [Demo.contract_pdf]
                            Demo.state0 Demo.world0)))))
     = ["contract.pdf"; "scan.pdf"].
Proof.
  assert (Hdata1 : read Demo.contract_pdf <> []) by discriminate.
  assert (Hextract1 : extract Demo.env (read Demo.contract_pdf)
                      = Ret "Payment due in 30 days") by (by vm_compute).
  assert (Hstrip1 : strip "Payment due in 30 days" <> "")
    by (vm_compute; discriminate).
  assert (Hdata2 : read Demo.scan_pdf <> []) by discriminate.
  assert (Hextract2 : extract Demo.env (read Demo.scan_pdf)
                      = Ret ("Invoice #123" ++ blank_line)) by (by vm_compute).
  assert (Hstrip2 : strip ("Invoice #123" ++ blank_line) <> "")
    by (vm_compute; discriminate).
  do 6 (split; [assumption|]).
  exact (proj2 (proj2 (handle_upload_twice_in_order Demo.env Demo.contract_pdf
                         Demo.scan_pdf Demo.state0 Demo.world0 _ _
                         Hdata1 Hextract1 Hstrip1 Hdata2 Hextract2 Hstrip2
                         (fun _ => eq_refl) (fun _ _ => eq_refl)))).
Defined.

(** *** Pages that fail *)

Lemma direct_pages_calls_stop {Image : Type} (texts : list string) (e : exn)
    (later : list (result string)) (n : nat) :
  direct_pages_calls (Image := Image) (map Ret texts ++ Raise e :: later) n
  = map call_extract_text (seq n (S (length texts))).
Proof.
  revert n. induction texts as [|t texts IH]; intros n; simpl; [done|].
  by rewrite IH.
Qed.

(** X18.  When [extract_text] raises on a page, the pages after it are
    not read and the text of the pages before it is dropped: the log
    gains the parser's call and one [extract_text] call for each page up
    to the failing one, nothing else is called, and the only line
    printed is the error. *)
Theorem handle_upload_page_error {Image : Type} (E : Env Image)
    (file : UploadFile) (rest : list UploadFile) (s : State) (w : World Image)
    (texts : list string) (e : exn) (later : list (result string)) :
  read file <> [] ->
  PdfReader_pages E (read file) = Ret (map Ret texts ++ Raise e :: later)%list ->
  let out := handle_upload E (file :: rest) s w in
  calls (snd out)
  = (calls w ++ call_PdfReader (upload_path E (filename file))
       :: map call_extract_text (seq 0 (S (length texts))))%list
  /\ stdout (snd out)
     = (stdout w ++ [("Error reading PDF with PyPDF2: " ++ exn_str e)%string])%list
  /\ fs (snd out) = <[upload_path E (filename file) := read file]> (fs w).
Proof.
  intros Hdata Hpages out. subst out.
  assert (Hraises : direct_text E (read file) = Raise e).
  { apply direct_text_raises. right. by exists texts, later. }
  rewrite (handle_upload_parse_error E file rest s w e Hdata Hraises). simpl.
  unfold direct_calls. rewrite Hpages. by rewrite direct_pages_calls_stop.
Qed.

Lemma handle_upload_page_error_witness :
  read Demo.broken_pdf <> []
  /\ PdfReader_pages
       (Demo.env_reading [Ret "Page one"; Raise Demo.PdfReadError; Ret "Page three"])
       (read Demo.broken_pdf)
     = Ret (map Ret ["Page one"] ++ Raise Demo.PdfReadError :: [Ret "Page three"])%list
  /\ calls
       (snd (handle_upload
               (Demo.env_reading [Ret "Page one"; Raise Demo.PdfReadError;
                                  Ret "Page three"])
               [Demo.broken_pdf] Demo.state0 Demo.world0))
     = [call_PdfReader "uploaded_files/broken.pdf"; call_extract_text 0;
        call_extract_text 1].
Proof.
  assert (Hdata : read Demo.broken_pdf <> []) by discriminate.
  split; [exact Hdata|]. split; [reflexivity|].
  exact (proj1 (handle_upload_page_error
                  (Demo.env_reading [Ret "Page one"; Raise Demo.PdfReadError;
                                     Ret "Page three"])
                  Demo.broken_pdf [] Demo.state0
                  Demo.world0 ["Page one"] Demo.PdfReadError [Ret "Page three"]
                  Hdata eq_refl)).
Defined.

(** X19.  An OCR failure part-way through a scanned document does not
    fail the upload when an earlier page had text: the text of the pages
    before the failing one is handed to the vector store, and the upload
    ends with the status "Processed and added <filename> to the
    knowledge base!". *)
Theorem handle_upload_partial_ocr {Image : Type} (E : Env Image)
    (file : UploadFile) (rest : list UploadFile) (s : State) (w : World Image)
    (texts ocr_texts : list string) (before after processed : list Image)
    (failing : Image) (e : exn) :
  read file <> [] ->
  PdfReader_pages E (read file) = Ret (map Ret texts) ->
  forallb all_space texts = true ->
  convert_from_path E (read file) = Ret (before ++ failing :: after)%list ->
  map (preprocess_spec E) before = map Ret processed ->
  map (image_to_string E) processed = map Ret ocr_texts ->
  ocr_page E failing = Raise e ->
  forallb all_space ocr_texts = false ->
  (forall w0, App_from_config E w0 (get_app_config s) = Ret tt) ->
  (forall w0 source, App_add E w0 (get_app_config s) source "text" = Ret tt) ->
  let out := handle_upload E (file :: rest) s w in
  fst (fst out) = Ret tt
  /\ upload_status (snd (fst out))
     = "Processed and added " ++ filename file ++ " to the knowledge base!"
  /\ knowledge_base_files (snd (fst out))
     = (knowledge_base_files s ++ [filename file])%list
  /\ ingested_text (snd out)
     = Some (String.concat "" (map (fun t => t ++ blank_line) ocr_texts)).
Proof.
  intros Hdata Hpages Hspace Himages Hpre Hread Hfail Htext Hopens Hadds out.
  subst out.
  destruct (direct_all_ok E _ _ Hpages) as [Hdirect _].
  destruct (ocr_pages_stop E before after processed failing ocr_texts e 0
              Hpre Hread Hfail) as (Hocr & _).
  rewrite <- all_space_concat in Hspace. apply strip_empty, not_str_true in Hspace.
  set (partial := String.concat "" (map (fun t => t ++ blank_line) ocr_texts)).
  assert (Hextract : extract E (read file) = Ret partial).
  { unfold extract. rewrite Hdirect. simpl. rewrite Hspace.
    unfold ocr_text. by rewrite Himages, Hocr. }
  assert (Hstrip : strip partial <> "").
  { intros Hempty%strip_empty. subst partial.
    by rewrite all_space_pages, Htext in Hempty. }
  destruct (handle_upload_to_ingest E file rest s w partial Hdata Hextract Hstrip)
    as (s2 & w2 & -> & Hfs & _ & Hkb & Hname & Hcfg & _).
  assert (Hfile : fs w2 !! upload_path E (filename file) = Some (read file))
    by (rewrite Hfs; apply lookup_insert_eq).
  destruct (handle_upload_ingest_calls E file _ partial s2 w2 _ Hfile)
    as (new & _ & _ & Hingested).
  split; [|split; [|split]].
  4: { apply Hingested. intros w0. rewrite Hcfg. apply Hopens. }
  all: rewrite (handle_upload_ingest_run E _ _ _ _ _ _ Hfile);
    rewrite Hcfg, Hopens, Hadds; simpl; by rewrite ?Hname, ?Hkb.
Qed.

Lemma handle_upload_partial_ocr_witness :
  read Demo.scan_pdf <> []
  /\ convert_from_path
       (Demo.env_with (fun _ => Ret ["invoice"; "torn"; "invoice"]) (Ret tt) (Ret tt))
       (read Demo.scan_pdf) = Ret (["invoice"] ++ "torn" :: ["invoice"])%list
  /\ ocr_page
       (Demo.env_with (fun _ => Ret ["invoice"; "torn"; "invoice"]) (Ret tt) (Ret tt))
       "torn" = Raise Demo.TesseractError
  /\ forallb all_space ["Invoice #123"] = false
  /\ ingested_text
       (snd (handle_upload
               (Demo.env_with (fun _ => Ret ["invoice"; "torn"; "invoice"])
                              (Ret tt) (Ret tt))
               [Demo.scan_pdf] Demo.state0 Demo.world0))
     = Some (String.concat "" (map (fun t => t ++ blank_line) ["Invoice #123"])).
Proof.
  assert (Hdata : read Demo.scan_pdf <> []) by discriminate.
  split; [exact Hdata|]. do 3 (split; [reflexivity|]).
  exact (proj2 (proj2 (proj2
           (handle_upload_partial_ocr
              (Demo.env_with (fun _ => Ret ["invoice"; "torn"; "invoice"])
                             (Ret tt) (Ret tt))
              Demo.scan_pdf [] Demo.state0 Demo.world0 [""] ["Invoice #123"]
              ["invoice"] ["invoice"] ["sharp(contrast(gray(invoice)))"] "torn"
              Demo.TesseractError Hdata eq_refl eq_refl eq_refl eq_refl eq_refl
              eq_refl eq_refl (fun _ => eq_refl) (fun _ _ => eq_refl))))).
Defined.

